(** * The feed resource of the Azure DevOps Terraform provider

    A shallow embedding of
    [azuredevops/internal/service/feed/resource_feed.go]: the four
    lifecycle handlers [resourceFeedCreate], [resourceFeedRead],
    [resourceFeedUpdate], [resourceFeedDelete] and their helpers
    [isFeedRestorable], [restoreFeed] and [feedFeatures].

    The handlers mutate the [*schema.ResourceData] they are given and talk
    to the remote service through [clients.FeedClient].  Both are threaded
    through a state monad whose state also records, in order, every remote
    call that was issued together with its arguments.  A Go run-time panic
    (nil dereference, failed type assertion) is an outcome of its own. *)

From stdpp Require Import base option list strings gmap.
From Stdlib Require Import ZArith Ascii.

Local Open Scope string_scope.
Local Open Scope list_scope.

(** ** Values of the Go libraries the handlers use *)

(** A Go [error] value.  The remote layer hands back
    [azuredevops.WrappedError]s (with an optional HTTP status code);
    [fmt.Errorf] builds an error out of a message. *)
Inductive error : Type :=
  | WrappedError (StatusCode : option Z) (Message : string)
  | errorString (s : string).

(** [err.Error()] *)
Definition Error (e : error) : string :=
  match e with
  | WrappedError _ m => m
  | errorString s => s
  end.

(** A [uuid.UUID], kept as the text [String()] prints. *)
Record UUID : Type := MkUUID { UUID_String : string }.

(** An [interface{}] as the schema hands it out for a primitive field. *)
Inductive ival : Type :=
  | VBool (b : bool)
  | VString (s : string)
  | VInt (z : Z).

(** Operands of [fmt.Errorf]. *)
Inductive fmtarg : Type :=
  | ArgString (s : string)
  | ArgError (e : error).

Definition fmtarg_text (a : fmtarg) : string :=
  match a with
  | ArgString s => s
  | ArgError e => Error e
  end.

(** The next operand of a verb; Go prints a marker when there is none. *)
Definition fmt_operand (verb : string) (args : list fmtarg) : string * list fmtarg :=
  match args with
  | a :: rest => (fmtarg_text a, rest)
  | [] => ("%!" +:+ verb +:+ "(MISSING)", [])
  end.

(** [fmt.Sprintf] for the two verbs of this file, [%s] and [%+v]. *)
Fixpoint Sprintf (format : string) (args : list fmtarg) : string :=
  match format with
  | EmptyString => EmptyString
  | String c f1 =>
      if Ascii.eqb c "%"%char then
        match f1 with
        | String c1 f2 =>
            if Ascii.eqb c1 "s"%char then
              let '(t, rest) := fmt_operand "s" args in t +:+ Sprintf f2 rest
            else if Ascii.eqb c1 "+"%char then
              match f2 with
              | String c2 f3 =>
                  if Ascii.eqb c2 "v"%char then
                    let '(t, rest) := fmt_operand "v" args in t +:+ Sprintf f3 rest
                  else String c (String c1 (String c2 (Sprintf f3 args)))
              | EmptyString => String c (String c1 EmptyString)
              end
            else String c (String c1 (Sprintf f2 args))
        | EmptyString => String c EmptyString
        end
      else String c (Sprintf f1 args)
  end.

(** [fmt.Errorf] *)
Definition Errorf (format : string) (args : list fmtarg) : error :=
  errorString (Sprintf format args).

(** *** Package [feed] of the Azure DevOps Go API *)

(** [feed.ChangeType] with the three [feed.ChangeTypeValues]. *)
Inductive ChangeType : Type :=
  | ChangeType_AddOrUpdate
  | ChangeType_Delete
  | ChangeType_PermanentDelete.

Global Instance ChangeType_eq_dec : EqDecision ChangeType.
Proof. solve_decision. Defined.

Record ProjectReference : Type := {
  ProjectReference_Id : option UUID;
  ProjectReference_Name : option string
}.

(** [feed.Feed], with the fields the handlers read or write; a field that
    is a pointer in Go is an [option] here, [None] being [nil]. *)
Record Feed : Type := {
  Feed_Id : option UUID;
  Feed_Name : option string;
  Feed_Project : option ProjectReference;
  Feed_Description : option string
}.

(** [feed.FeedUpdate] *)
Record FeedUpdate : Type := {
  FeedUpdate_Name : option string;
  FeedUpdate_Description : option string;
  FeedUpdate_HideDeletedPackageVersions : option bool;
  FeedUpdate_UpstreamEnabled : option bool
}.

Record FeedChange : Type := {
  FeedChange_ChangeType : option ChangeType;
  FeedChange_Feed : option Feed
}.

(** *** Package [webapi] *)

Inductive Operation : Type :=
  | Operation_Add
  | Operation_Copy
  | Operation_Move
  | Operation_Remove
  | Operation_Replace
  | Operation_Test.

Record JsonPatchOperation : Type := {
  JsonPatchOperation_From : option string;
  JsonPatchOperation_Op : option Operation;
  JsonPatchOperation_Path : option string;
  JsonPatchOperation_Value : ival
}.

(** *** Arguments of the remote calls *)

Record CreateFeedArgs : Type := {
  CreateFeedArgs_Feed : option Feed;
  CreateFeedArgs_Project : option string
}.

Record GetFeedArgs : Type := {
  GetFeedArgs_FeedId : option string;
  GetFeedArgs_Project : option string
}.

Record UpdateFeedArgs : Type := {
  UpdateFeedArgs_Feed : option FeedUpdate;
  UpdateFeedArgs_FeedId : option string;
  UpdateFeedArgs_Project : option string
}.

Record DeleteFeedArgs : Type := {
  DeleteFeedArgs_FeedId : option string;
  DeleteFeedArgs_Project : option string
}.

Record PermanentDeleteFeedArgs : Type := {
  PermanentDeleteFeedArgs_FeedId : option string;
  PermanentDeleteFeedArgs_Project : option string
}.

Record GetFeedChangeArgs : Type := {
  GetFeedChangeArgs_FeedId : option string;
  GetFeedChangeArgs_Project : option string
}.

Record RestoreDeletedFeedArgs : Type := {
  RestoreDeletedFeedArgs_FeedId : option string;
  RestoreDeletedFeedArgs_Project : option string;
  RestoreDeletedFeedArgs_PatchJson : option (list JsonPatchOperation)
}.

(** One remote call, as it is recorded in the history of a run. *)
Inductive Call : Type :=
  | CallCreateFeed (a : CreateFeedArgs)
  | CallGetFeed (a : GetFeedArgs)
  | CallUpdateFeed (a : UpdateFeedArgs)
  | CallDeleteFeed (a : DeleteFeedArgs)
  | CallPermanentDeleteFeed (a : PermanentDeleteFeedArgs)
  | CallGetFeedChange (a : GetFeedChangeArgs)
  | CallRestoreDeletedFeed (a : RestoreDeletedFeedArgs).

Definition is_CreateFeed (c : Call) : bool :=
  match c with CallCreateFeed _ => true | _ => false end.
Definition is_GetFeed (c : Call) : bool :=
  match c with CallGetFeed _ => true | _ => false end.
Definition is_DeleteFeed (c : Call) : bool :=
  match c with CallDeleteFeed _ => true | _ => false end.
Definition is_PermanentDeleteFeed (c : Call) : bool :=
  match c with CallPermanentDeleteFeed _ => true | _ => false end.
Definition is_GetFeedChange (c : Call) : bool :=
  match c with CallGetFeedChange _ => true | _ => false end.
Definition is_RestoreDeletedFeed (c : Call) : bool :=
  match c with CallRestoreDeletedFeed _ => true | _ => false end.

(** How often a kind of call occurs in a history. *)
Definition count_calls (p : Call → bool) (h : list Call) : nat :=
  List.length (filter (λ c, p c = true) h).

(** ** The resource data *)

(** [schema.ResourceData] restricted to the schema of [ResourceFeed]: the
    identifier, the two string fields (absent until set) and the list of
    [features] blocks, each a [map[string]interface{}]. *)
Record ResourceData : Type := {
  Id : string;
  name : option string;
  project_id : option string;
  features : list (gmap string ival)
}.

(** [d.Get("name").(string)]: the zero value when the field is not set. *)
Definition Get_name (d : ResourceData) : string := default "" (name d).

(** [d.Get("project_id").(string)] *)
Definition Get_project_id (d : ResourceData) : string := default "" (project_id d).

(** [d.SetId(id)] *)
Definition SetId (id : string) (d : ResourceData) : ResourceData :=
  {| Id := id; name := name d; project_id := project_id d; features := features d |}.

(** [d.Set("name", v)] with [v] a [*string]: the field holds what the
    pointer holds, and no value when the pointer is nil. *)
Definition Set_name (v : option string) (d : ResourceData) : ResourceData :=
  {| Id := Id d; name := v; project_id := project_id d; features := features d |}.

(** [d.Set("project_id", v)] with [v] a [string] *)
Definition Set_project_id (v : string) (d : ResourceData) : ResourceData :=
  {| Id := Id d; name := name d; project_id := Some v; features := features d |}.

(** [feedFeatures]: the first [features] block, or an empty map. *)
Definition feedFeatures (d : ResourceData) : gmap string ival :=
  match features d with
  | m :: _ => m
  | [] => ∅
  end.

(** A feature flag as the handlers consult it,
    [if v, ok := features[key]; ok { if b := v.(bool); b { ... } }]:
    [Some false] when the block or the key is absent, [None] when the value
    is not a [bool] (the assertion would panic). *)
Definition feature (key : string) (d : ResourceData) : option bool :=
  match feedFeatures d !! key with
  | Some (VBool b) => Some b
  | Some _ => None
  | None => Some false
  end.

(** Modelled from the spec: [converter.String], a helper of the repository
    that is not among the sources.  The spec has the requests addressed by
    [{feedId: name, scopeId}], the strings the helper is given, so it yields
    a pointer to its argument. *)
Definition converter_String (s : string) : option string := Some s.

(** ** The remote service *)

(** [clients.FeedClient]: each method answers from the state of the remote
    side (which includes the context [clients.Ctx]) and moves it on.  A
    result [(v, err)] is Go's pair of a pointer and an error.
    [ResponseWasNotFound] is [utils.ResponseWasNotFound], which the
    repository defines outside this file. *)
Class FeedClient (R : Type) : Type := {
  CreateFeed : CreateFeedArgs → R → (option Feed * option error) * R;
  GetFeed : GetFeedArgs → R → (option Feed * option error) * R;
  UpdateFeed : UpdateFeedArgs → R → (option Feed * option error) * R;
  DeleteFeed : DeleteFeedArgs → R → option error * R;
  PermanentDeleteFeed : PermanentDeleteFeedArgs → R → option error * R;
  GetFeedChange : GetFeedChangeArgs → R → (option FeedChange * option error) * R;
  RestoreDeletedFeed : RestoreDeletedFeedArgs → R → option error * R;
  ResponseWasNotFound : error → bool
}.

(** ** The monad of a handler *)

Inductive Outcome (A : Type) : Type :=
  | Done (a : A)
  | Panic.
Arguments Done {A} a.
Arguments Panic {A}.

Record World (R : Type) : Type := {
  rd : ResourceData;
  remote : R;
  calls : list Call
}.
Arguments rd {R} w.
Arguments remote {R} w.
Arguments calls {R} w.

(** The world once [d] was written through. *)
Definition written {R} (f : ResourceData → ResourceData) (w : World R) : World R :=
  {| rd := f (rd w); remote := remote w; calls := calls w |}.

(** The world once the call [c] was issued and left the remote side in [r']. *)
Definition called {R} (c : Call) (r' : R) (w : World R) : World R :=
  {| rd := rd w; remote := r'; calls := calls w ++ [c] |}.

Definition M (R A : Type) : Type := World R → Outcome A * World R.

Global Instance M_ret {R} : MRet (M R) := λ A a w, (Done a, w).

Global Instance M_bind {R} : MBind (M R) := λ A B k m w,
  match m w with
  | (Done a, w') => k a w'
  | (Panic, w') => (Panic, w')
  end.

Section handlers.
Context {R : Type} `{!FeedClient R}.

Definition panic {A} : M R A := λ w, (Panic, w).

(** Reading through the pointer [d]. *)
Definition getd {A} (f : ResourceData → A) : M R A := λ w, (Done (f (rd w)), w).

(** Writing through the pointer [d]. *)
Definition setd (f : ResourceData → ResourceData) : M R unit := λ w,
  (Done tt, written f w).

(** [*p]: a nil pointer panics. *)
Definition deref {A} (p : option A) : M R A :=
  match p with
  | Some a => mret a
  | None => panic
  end.

(** [v.(bool)]: the assertion panics on another dynamic type. *)
Definition assert_bool (v : ival) : M R bool :=
  match v with
  | VBool b => mret b
  | _ => panic
  end.

(** A remote call: answered by the client, recorded in the history. *)
Definition invoke {T} (c : Call) (method : R → T * R) : M R T := λ w,
  let '(t, r') := method (remote w) in
  (Done t, called c r' w).

(** *** [resourceFeedRead] *)
Definition resourceFeedRead : M R (option error) :=
  name ← getd Get_name;
  projectId ← getd Get_project_id;
  let args := {| GetFeedArgs_FeedId := Some name; GetFeedArgs_Project := Some projectId |} in
  '(getFeed, err) ← invoke (CallGetFeed args) (GetFeed args);
  match err with
  | Some e =>
      if ResponseWasNotFound e then
        setd (SetId "");; mret None
      else mret (Some (Errorf " reading feed during read: %+v" [ArgError e]))
  | None =>
      match getFeed with
      | Some f =>
          id ← deref (Feed_Id f);
          setd (SetId (UUID_String id));;
          setd (Set_name (Feed_Name f));;
          match Feed_Project f with
          | Some p =>
              pid ← deref (ProjectReference_Id p);
              setd (Set_project_id (UUID_String pid))
          | None => mret tt
          end;;
          mret None
      | None => mret None
      end
  end.

(** *** [isFeedRestorable] *)
Definition isFeedRestorable : M R bool :=
  name ← getd Get_name;
  projectId ← getd Get_project_id;
  let args := {| GetFeedChangeArgs_FeedId := converter_String name;
                 GetFeedChangeArgs_Project := converter_String projectId |} in
  '(change, err) ← invoke (CallGetFeedChange args) (GetFeedChange args);
  match err with
  | Some _ => mret false
  | None =>
      ch ← deref change;
      ct ← deref (FeedChange_ChangeType ch);
      mret (bool_decide (ct = ChangeType_Delete))
  end.

(** The patch document [restoreFeed] sends. *)
Definition restorePatch : list JsonPatchOperation :=
  [ {| JsonPatchOperation_From := None;
       JsonPatchOperation_Op := Some Operation_Replace;
       JsonPatchOperation_Path := converter_String "/isDeleted";
       JsonPatchOperation_Value := VBool false |} ].

(** *** [restoreFeed] *)
Definition restoreFeed : M R (option error) :=
  name ← getd Get_name;
  projectId ← getd Get_project_id;
  let args := {| RestoreDeletedFeedArgs_FeedId := converter_String name;
                 RestoreDeletedFeedArgs_Project := converter_String projectId;
                 RestoreDeletedFeedArgs_PatchJson := Some restorePatch |} in
  err ← invoke (CallRestoreDeletedFeed args) (RestoreDeletedFeed args);
  match err with
  | Some e => mret (Some e)
  | None => mret None
  end.

(** The tail of [resourceFeedCreate], from the [CreateFeed] call on. *)
Definition createFeedRemote (name projectId : string) : M R (option error) :=
  let args := {| CreateFeedArgs_Feed :=
                   Some {| Feed_Id := None; Feed_Name := Some name;
                           Feed_Project := None; Feed_Description := None |};
                 CreateFeedArgs_Project := Some projectId |} in
  '(_, err) ← invoke (CallCreateFeed args) (CreateFeed args);
  match err with
  | Some e =>
      mret (Some (Errorf "creating new feed. Name: %s, Error: %+v" [ArgString name; ArgError e]))
  | None => resourceFeedRead
  end.

(** *** [resourceFeedCreate] *)
Definition resourceFeedCreate : M R (option error) :=
  name ← getd Get_name;
  projectId ← getd Get_project_id;
  features ← getd feedFeatures;
  match features !! "restore" with
  | Some v =>
      restore ← assert_bool v;
      restorable ← (if (restore : bool) then isFeedRestorable else mret false);
      if (restorable : bool) then
        err ← restoreFeed;
        match err with
        | Some e =>
            mret (Some (Errorf "restoring feed. Name: %s, Error: %+v" [ArgString name; ArgError e]))
        | None => resourceFeedRead
        end
      else createFeedRemote name projectId
  | None => createFeedRemote name projectId
  end.

(** *** [resourceFeedUpdate] *)
Definition resourceFeedUpdate : M R (option error) :=
  name ← getd Get_name;
  projectId ← getd Get_project_id;
  let args := {| UpdateFeedArgs_Feed :=
                   Some {| FeedUpdate_Name := None; FeedUpdate_Description := None;
                           FeedUpdate_HideDeletedPackageVersions := None;
                           FeedUpdate_UpstreamEnabled := None |};
                 UpdateFeedArgs_FeedId := Some name;
                 UpdateFeedArgs_Project := Some projectId |} in
  '(_, err) ← invoke (CallUpdateFeed args) (UpdateFeed args);
  match err with
  | Some e => mret (Some e)
  | None => resourceFeedRead
  end.

(** *** [resourceFeedDelete] *)
Definition resourceFeedDelete : M R (option error) :=
  name ← getd Get_name;
  projectId ← getd Get_project_id;
  features ← getd feedFeatures;
  let args := {| DeleteFeedArgs_FeedId := Some name; DeleteFeedArgs_Project := Some projectId |} in
  err ← invoke (CallDeleteFeed args) (DeleteFeed args);
  match err with
  | Some e => mret (Some e)
  | None =>
      match features !! "permanent_delete" with
      | Some v =>
          permanentDelete ← assert_bool v;
          if (permanentDelete : bool) then
            let pargs := {| PermanentDeleteFeedArgs_FeedId := Some name;
                            PermanentDeleteFeedArgs_Project := Some projectId |} in
            err ← invoke (CallPermanentDeleteFeed pargs) (PermanentDeleteFeed pargs);
            match err with
            | Some e => mret (Some e)
            | None => setd (SetId "");; mret None
            end
          else setd (SetId "");; mret None
      | None => setd (SetId "");; mret None
      end
  end.

End handlers.

(** ** A scripted remote side

    A remote side that answers every method from a fixed script, whatever
    the arguments; "not found" is the HTTP status 404.  It serves as the
    concrete client of the examples below. *)
Record Script : Type := {
  on_CreateFeed : option Feed * option error;
  on_GetFeed : option Feed * option error;
  on_UpdateFeed : option Feed * option error;
  on_DeleteFeed : option error;
  on_PermanentDeleteFeed : option error;
  on_GetFeedChange : option FeedChange * option error;
  on_RestoreDeletedFeed : option error
}.

Definition status_is_404 (e : error) : bool :=
  match e with
  | WrappedError (Some c) _ => Z.eqb c 404
  | _ => false
  end.

Global Instance scripted : FeedClient Script := {
  CreateFeed _ r := (on_CreateFeed r, r);
  GetFeed _ r := (on_GetFeed r, r);
  UpdateFeed _ r := (on_UpdateFeed r, r);
  DeleteFeed _ r := (on_DeleteFeed r, r);
  PermanentDeleteFeed _ r := (on_PermanentDeleteFeed r, r);
  GetFeedChange _ r := (on_GetFeedChange r, r);
  RestoreDeletedFeed _ r := (on_RestoreDeletedFeed r, r);
  ResponseWasNotFound := status_is_404
}.

Definition pkgs_project : string := "11111111-1111-1111-1111-111111111111".
Definition pkgs_id : UUID := MkUUID "9f4a7c1e-0000-4000-8000-000000000001".

(** The feed the scripted remote side knows. *)
Definition pkgs_feed : Feed :=
  {| Feed_Id := Some pkgs_id; Feed_Name := Some "pkgs";
     Feed_Project := Some {| ProjectReference_Id := Some (MkUUID pkgs_project);
                             ProjectReference_Name := Some "artifacts" |};
     Feed_Description := None |}.

Definition err_conflict : error := WrappedError (Some 409%Z) "feed name is taken".
Definition err_gone : error := WrappedError (Some 404%Z) "feed does not exist".
Definition err_server : error := WrappedError (Some 500%Z) "internal server error".

(** Every method succeeds; the change history says the feed was deleted. *)
Definition all_good : Script :=
  {| on_CreateFeed := (Some pkgs_feed, None);
     on_GetFeed := (Some pkgs_feed, None);
     on_UpdateFeed := (Some pkgs_feed, None);
     on_DeleteFeed := None;
     on_PermanentDeleteFeed := None;
     on_GetFeedChange := (Some {| FeedChange_ChangeType := Some ChangeType_Delete;
                                  FeedChange_Feed := Some pkgs_feed |}, None);
     on_RestoreDeletedFeed := None |}.

(** The configuration [{name: "pkgs", project_id: ..., features: blocks}]
    before anything was applied. *)
Definition pkgs_data (blocks : list (gmap string ival)) : ResourceData :=
  {| Id := ""; name := Some "pkgs"; project_id := Some pkgs_project; features := blocks |}.

Definition features_block (permanent_delete restore : bool) : gmap string ival :=
  <["permanent_delete" := VBool permanent_delete]> (<["restore" := VBool restore]> ∅).

Definition start (d : ResourceData) (r : Script) : World Script :=
  {| rd := d; remote := r; calls := [] |}.

(** As [all_good], but the restore request is refused. *)
Definition restore_refused : Script :=
  {| on_CreateFeed := on_CreateFeed all_good;
     on_GetFeed := on_GetFeed all_good;
     on_UpdateFeed := on_UpdateFeed all_good;
     on_DeleteFeed := on_DeleteFeed all_good;
     on_PermanentDeleteFeed := on_PermanentDeleteFeed all_good;
     on_GetFeedChange := on_GetFeedChange all_good;
     on_RestoreDeletedFeed := Some err_server |}.

(** As [all_good], but the feed cannot be fetched: [GetFeed] fails with [e]. *)
Definition fetch_fails (e : error) : Script :=
  {| on_CreateFeed := on_CreateFeed all_good;
     on_GetFeed := (None, Some e);
     on_UpdateFeed := on_UpdateFeed all_good;
     on_DeleteFeed := on_DeleteFeed all_good;
     on_PermanentDeleteFeed := on_PermanentDeleteFeed all_good;
     on_GetFeedChange := on_GetFeedChange all_good;
     on_RestoreDeletedFeed := on_RestoreDeletedFeed all_good |}.

(** As [all_good], but the soft delete goes through and the purge does not. *)
Definition purge_refused : Script :=
  {| on_CreateFeed := on_CreateFeed all_good;
     on_GetFeed := on_GetFeed all_good;
     on_UpdateFeed := on_UpdateFeed all_good;
     on_DeleteFeed := None;
     on_PermanentDeleteFeed := Some err_server;
     on_GetFeedChange := on_GetFeedChange all_good;
     on_RestoreDeletedFeed := on_RestoreDeletedFeed all_good |}.

(** As [all_good], but the change history answers with a record that has
    no change type. *)
Definition change_untyped : Script :=
  {| on_CreateFeed := on_CreateFeed all_good;
     on_GetFeed := on_GetFeed all_good;
     on_UpdateFeed := on_UpdateFeed all_good;
     on_DeleteFeed := on_DeleteFeed all_good;
     on_PermanentDeleteFeed := on_PermanentDeleteFeed all_good;
     on_GetFeedChange := (Some {| FeedChange_ChangeType := None; FeedChange_Feed := None |}, None);
     on_RestoreDeletedFeed := on_RestoreDeletedFeed all_good |}.

(** As [all_good], but the change history cannot be queried. *)
Definition history_down : Script :=
  {| on_CreateFeed := on_CreateFeed all_good;
     on_GetFeed := on_GetFeed all_good;
     on_UpdateFeed := on_UpdateFeed all_good;
     on_DeleteFeed := on_DeleteFeed all_good;
     on_PermanentDeleteFeed := on_PermanentDeleteFeed all_good;
     on_GetFeedChange := (None, Some err_server);
     on_RestoreDeletedFeed := on_RestoreDeletedFeed all_good |}.

(** The resource data of a feed that was applied before. *)
Definition pkgs_tracked (blocks : list (gmap string ival)) : ResourceData :=
  SetId (UUID_String pkgs_id) (pkgs_data blocks).

(** The arguments the handlers address the feed [pkgs] with. *)
Definition pkgs_query : GetFeedChangeArgs :=
  {| GetFeedChangeArgs_FeedId := Some "pkgs"; GetFeedChangeArgs_Project := Some pkgs_project |}.
Definition pkgs_restore : RestoreDeletedFeedArgs :=
  {| RestoreDeletedFeedArgs_FeedId := Some "pkgs";
     RestoreDeletedFeedArgs_Project := Some pkgs_project;
     RestoreDeletedFeedArgs_PatchJson :=
       Some [ {| JsonPatchOperation_From := None;
                 JsonPatchOperation_Op := Some Operation_Replace;
                 JsonPatchOperation_Path := Some "/isDeleted";
                 JsonPatchOperation_Value := VBool false |} ] |}.
Definition pkgs_get : GetFeedArgs :=
  {| GetFeedArgs_FeedId := Some "pkgs"; GetFeedArgs_Project := Some pkgs_project |}.
Definition pkgs_create : CreateFeedArgs :=
  {| CreateFeedArgs_Feed :=
       Some {| Feed_Id := None; Feed_Name := Some "pkgs";
               Feed_Project := None; Feed_Description := None |};
     CreateFeedArgs_Project := Some pkgs_project |}.
Definition pkgs_delete : DeleteFeedArgs :=
  {| DeleteFeedArgs_FeedId := Some "pkgs"; DeleteFeedArgs_Project := Some pkgs_project |}.
Definition pkgs_purge : PermanentDeleteFeedArgs :=
  {| PermanentDeleteFeedArgs_FeedId := Some "pkgs";
     PermanentDeleteFeedArgs_Project := Some pkgs_project |}.


(** As [all_good], but the name is taken: [CreateFeed] is refused. *)
Definition create_refused : Script :=
  {| on_CreateFeed := (None, Some err_conflict);
     on_GetFeed := on_GetFeed all_good;
     on_UpdateFeed := on_UpdateFeed all_good;
     on_DeleteFeed := on_DeleteFeed all_good;
     on_PermanentDeleteFeed := on_PermanentDeleteFeed all_good;
     on_GetFeedChange := on_GetFeedChange all_good;
     on_RestoreDeletedFeed := on_RestoreDeletedFeed all_good |}.

(** As [all_good], but [GetFeed] answers with neither a feed nor an error. *)
Definition fetch_nothing : Script :=
  {| on_CreateFeed := on_CreateFeed all_good;
     on_GetFeed := (None, None);
     on_UpdateFeed := on_UpdateFeed all_good;
     on_DeleteFeed := on_DeleteFeed all_good;
     on_PermanentDeleteFeed := on_PermanentDeleteFeed all_good;
     on_GetFeedChange := on_GetFeedChange all_good;
     on_RestoreDeletedFeed := on_RestoreDeletedFeed all_good |}.

(** The resource data of the feed [pkgs] as it is tracked after an apply,
    written out field by field. *)
Definition pkgs_applied (blocks : list (gmap string ival)) : ResourceData :=
  {| Id := "9f4a7c1e-0000-4000-8000-000000000001";
     name := Some "pkgs";
     project_id := Some "11111111-1111-1111-1111-111111111111";
     features := blocks |}.

(** * Properties *)

Lemma append_empty_r (s : string) : s +:+ "" = s.
Proof.
  induction s as [|c s IH]; [done |].
  change (String c (s +:+ "") = String c s). by rewrite IH.
Qed.

(** The three messages [fmt.Errorf] builds in this file. *)
Lemma Errorf_reading (e : error) :
  Errorf " reading feed during read: %+v" [ArgError e]
  = errorString (" reading feed during read: " +:+ Error e).
Proof.
  unfold Errorf. f_equal.
  transitivity (" reading feed during read: " +:+ (Error e +:+ "")); [reflexivity |].
  by rewrite append_empty_r.
Qed.

Lemma Errorf_creating (n : string) (e : error) :
  Errorf "creating new feed. Name: %s, Error: %+v" [ArgString n; ArgError e]
  = errorString ("creating new feed. Name: " +:+ n +:+ ", Error: " +:+ Error e).
Proof.
  unfold Errorf. f_equal.
  transitivity ("creating new feed. Name: " +:+ n +:+ ", Error: " +:+ (Error e +:+ ""));
    [reflexivity |].
  by rewrite append_empty_r.
Qed.

Lemma Errorf_restoring (n : string) (e : error) :
  Errorf "restoring feed. Name: %s, Error: %+v" [ArgString n; ArgError e]
  = errorString ("restoring feed. Name: " +:+ n +:+ ", Error: " +:+ Error e).
Proof.
  unfold Errorf. f_equal.
  transitivity ("restoring feed. Name: " +:+ n +:+ ", Error: " +:+ (Error e +:+ ""));
    [reflexivity |].
  by rewrite append_empty_r.
Qed.

Lemma length_append (p s : string) :
  String.length (p +:+ s) = String.length p + String.length s.
Proof.
  induction p as [|c p IH]; [done |].
  change (S (String.length (p +:+ s)) = S (String.length p + String.length s)).
  by rewrite IH.
Qed.

(** A text that follows a non-empty prefix is not the text alone: wrapping
    an error into a longer message always changes it. *)
Lemma append_longer (p s : string) : p ≠ "" → p +:+ s ≠ s.
Proof.
  intros Hp Heq. apply (f_equal String.length) in Heq.
  rewrite length_append in Heq.
  destruct p; [done | simpl in Heq; lia].
Qed.

Section properties.
Context {R : Type} `{!FeedClient R}.

Implicit Types (w : World R) (d : ResourceData) (e : error).

Ltac run :=
  unfold mbind, M_bind, mret, M_ret, getd, setd, invoke, deref, assert_bool, panic; simpl.

(** [feature] in terms of the lookup the handlers make. *)
Lemma feature_true (key : string) d :
  feature key d = Some true ↔ feedFeatures d !! key = Some (VBool true).
Proof. unfold feature. destruct (feedFeatures d !! key) as [[[] | |]|]; by split. Qed.

Lemma feature_false (key : string) d :
  feature key d = Some false
  ↔ feedFeatures d !! key = Some (VBool false) ∨ feedFeatures d !! key = None.
Proof.
  unfold feature. destruct (feedFeatures d !! key) as [[[] | |]|]; split;
    first [by intros [|] | by left | by right | done].
Qed.

(** [feedFeatures] of an absent block has no key at all. *)
Lemma feature_absent_block (key : string) d :
  features d = [] → feature key d = Some false.
Proof. intros H. unfold feature, feedFeatures. by rewrite H, lookup_empty. Qed.

(** [resourceFeedRead] issues one call, [GetFeed]; it is recorded even when
    the handler then panics on the response. *)
Lemma resourceFeedRead_calls w :
  calls (resourceFeedRead w).2
  = calls w ++ [CallGetFeed {| GetFeedArgs_FeedId := Some (Get_name (rd w));
                               GetFeedArgs_Project := Some (Get_project_id (rd w)) |}].
Proof.
  unfold resourceFeedRead. run.
  destruct (GetFeed _ (remote w)) as [[getFeed [e|]] r']; simpl.
  - by destruct (ResponseWasNotFound e).
  - destruct getFeed as [[[u|] nm [[[pid|] pn]|] ds]|]; done.
Qed.

(** [resourceFeedRead] leaves the [features] blocks alone. *)
Lemma resourceFeedRead_features w :
  features (rd (resourceFeedRead w).2) = features (rd w).
Proof.
  unfold resourceFeedRead. run.
  destruct (GetFeed _ (remote w)) as [[getFeed [e|]] r']; simpl.
  - by destruct (ResponseWasNotFound e).
  - destruct getFeed as [[[u|] nm [[[pid|] pn]|] ds]|]; done.
Qed.

(** ** Read *)

(** C4: when the [GetFeed] query of Read fails with a not-found error, Read
    returns no error and the state identifier it leaves is the empty
    string (name, project id and features stay); when the query fails with
    any other error [e], Read returns an error whose message is
    [" reading feed during read: "] followed by the text of [e], and
    leaves the resource data, the identifier included, as it was. *)
Theorem read_query_failure w e :
  let args := {| GetFeedArgs_FeedId := Some (Get_name (rd w));
                 GetFeedArgs_Project := Some (Get_project_id (rd w)) |} in
  let w1 := called (CallGetFeed args) (GetFeed args (remote w)).2 w in
  let out := resourceFeedRead w in
  (GetFeed args (remote w)).1.2 = Some e →
  out
  = (if ResponseWasNotFound e
     then (Done None, written (SetId "") w1)
     else (Done (Some (errorString (" reading feed during read: " +:+ Error e))), w1))
  ∧ (ResponseWasNotFound e = true →
       out.1 = Done None
       ∧ Id (rd out.2) = ""
       ∧ name (rd out.2) = name (rd w)
       ∧ project_id (rd out.2) = project_id (rd w)
       ∧ features (rd out.2) = features (rd w))
  ∧ (ResponseWasNotFound e = false →
       out.1 = Done (Some (errorString (" reading feed during read: " +:+ Error e)))
       ∧ rd out.2 = rd w).
Proof.
  intros args w1 out Herr. subst out args w1. unfold resourceFeedRead. run.
  destruct (GetFeed _ (remote w)) as [[getFeed err] r']; simpl in *. subst err.
  destruct (ResponseWasNotFound e); simpl.
  - by repeat split.
  - rewrite Errorf_reading. by repeat split.
Qed.

(** C5: when the [GetFeed] query of Read succeeds with a feed that carries
    its server-assigned id, Read returns no error, sets the state
    identifier to that id, sets [name] to the name of the response exactly
    when the response has one, and sets [project_id] from the nested
    project of the response when there is one, leaving it untouched when
    the nested project is nil. *)
Theorem read_query_success w (f : Feed) (u : UUID) :
  let args := {| GetFeedArgs_FeedId := Some (Get_name (rd w));
                 GetFeedArgs_Project := Some (Get_project_id (rd w)) |} in
  let out := resourceFeedRead w in
  (GetFeed args (remote w)).1 = (Some f, None) →
  Feed_Id f = Some u →
  (∀ p, Feed_Project f = Some p → is_Some (ProjectReference_Id p)) →
  out.1 = Done None
  ∧ Id (rd out.2) = UUID_String u
  ∧ (∀ n, name (rd out.2) = Some n ↔ Feed_Name f = Some n)
  ∧ project_id (rd out.2)
    = match Feed_Project f with
      | Some p => UUID_String <$> ProjectReference_Id p
      | None => project_id (rd w)
      end
  ∧ features (rd out.2) = features (rd w).
Proof.
  intros args out Hresp Hid Hproj. subst args out. unfold resourceFeedRead. run.
  destruct (GetFeed _ (remote w)) as [[getFeed err] r']; simpl in *.
  injection Hresp as -> ->. rewrite Hid. simpl.
  destruct (Feed_Project f) as [p|] eqn:Hp; simpl.
  - destruct (Hproj p eq_refl) as [pid ->]. simpl. by repeat split.
  - by repeat split.
Qed.

(** ** Update *)

(** C9: Update issues [UpdateFeed] with an empty [FeedUpdate] and the
    identifiers [{FeedId: name, Project: project_id}]; when the call fails
    the handler returns that very error and does nothing else; when it
    succeeds the handler continues as Read. *)
Theorem update_empty_payload_then_read w :
  let args := {| UpdateFeedArgs_Feed :=
                   Some {| FeedUpdate_Name := None; FeedUpdate_Description := None;
                           FeedUpdate_HideDeletedPackageVersions := None;
                           FeedUpdate_UpstreamEnabled := None |};
                 UpdateFeedArgs_FeedId := Some (Get_name (rd w));
                 UpdateFeedArgs_Project := Some (Get_project_id (rd w)) |} in
  let w1 := called (CallUpdateFeed args) (UpdateFeed args (remote w)).2 w in
  resourceFeedUpdate w
  = match (UpdateFeed args (remote w)).1.2 with
    | Some e => (Done (Some e), w1)
    | None => resourceFeedRead w1
    end
  ∧ calls (resourceFeedUpdate w).2
    = calls w ++ CallUpdateFeed args ::
        match (UpdateFeed args (remote w)).1.2 with
        | Some _ => []
        | None => [CallGetFeed {| GetFeedArgs_FeedId := Some (Get_name (rd w));
                                  GetFeedArgs_Project := Some (Get_project_id (rd w)) |}]
        end.
Proof.
  intros args w1.
  assert (Hrun : resourceFeedUpdate w
                 = match (UpdateFeed args (remote w)).1.2 with
                   | Some e => (Done (Some e), w1)
                   | None => resourceFeedRead w1
                   end).
  { subst args w1. unfold resourceFeedUpdate. run.
    by destruct (UpdateFeed _ (remote w)) as [[upd [e|]] r']. }
  split; [exact Hrun |]. rewrite Hrun.
  destruct ((UpdateFeed args (remote w)).1.2) as [e|].
  - done.
  - rewrite resourceFeedRead_calls. subst w1. simpl. by rewrite <- app_assoc.
Qed.

(** ** The restorability check *)

(** C8: [isFeedRestorable] hands back a boolean and never an error.  It is
    [true] exactly when the [GetFeedChange] query succeeds and the change
    type it reports is [Delete]; it is [false] whenever the query fails; and
    it is [false] when the query succeeds with another recorded change
    type.  The resource data is never written. *)
Theorem isFeedRestorable_fails_closed w :
  let args := {| GetFeedChangeArgs_FeedId := Some (Get_name (rd w));
                 GetFeedChangeArgs_Project := Some (Get_project_id (rd w)) |} in
  let resp := (GetFeedChange args (remote w)).1 in
  let out := isFeedRestorable w in
  (out.1 = Done true
   ↔ ∃ ch, resp = (Some ch, None) ∧ FeedChange_ChangeType ch = Some ChangeType_Delete)
  ∧ (∀ e, resp.2 = Some e → out.1 = Done false)
  ∧ (∀ ch ct, resp = (Some ch, None) → FeedChange_ChangeType ch = Some ct →
       ct ≠ ChangeType_Delete → out.1 = Done false)
  ∧ out.2 = called (CallGetFeedChange args) (GetFeedChange args (remote w)).2 w.
Proof.
  intros args resp out. subst args resp out. unfold isFeedRestorable, converter_String. run.
  destruct (GetFeedChange _ (remote w)) as [[[[[ct|] fd]|] [e|]] r']; simpl;
    (split; [split; [intros Ht | intros (ch & Hresp & Hct)] |
             split; [intros e' He | split; [intros ch ct' Hresp Hct Hne | done]]]);
    try case_bool_decide; simplify_eq/=; try done.
  all: by eexists.
Qed.

(** C10: [isFeedRestorable] comes back with a boolean exactly when the
    query failed or its successful response carries a change record with a
    change type.  A successful response without a change record, or with a
    record without change type, makes the handler panic on the
    dereference: it does not answer [false]. *)
Theorem isFeedRestorable_total_iff w :
  let args := {| GetFeedChangeArgs_FeedId := Some (Get_name (rd w));
                 GetFeedChangeArgs_Project := Some (Get_project_id (rd w)) |} in
  let resp := (GetFeedChange args (remote w)).1 in
  let out := isFeedRestorable w in
  ((∃ b, out.1 = Done b)
   ↔ is_Some resp.2 ∨ ∃ ch ct, resp.1 = Some ch ∧ FeedChange_ChangeType ch = Some ct)
  ∧ (resp = (None, None) → out.1 = Panic)
  ∧ (∀ ch, resp = (Some ch, None) → FeedChange_ChangeType ch = None → out.1 = Panic).
Proof.
  intros args resp out. subst args resp out. unfold isFeedRestorable, converter_String. run.
  destruct (GetFeedChange _ (remote w)) as [[[[[ct|] fd]|] [e|]] r']; simpl;
    (split; [split; [intros [b Hb] | intros [[e' He]|(ch & ct' & Hresp & Hct)]] |
             split; [intros Hresp | intros ch Hresp Hct]]);
    simplify_eq/=; try done; try (by eexists); try (left; by eexists).
  all: right; by eexists _, _.
Qed.

(** ** Create *)

Lemma count_calls_app (p : Call → bool) (h1 h2 : list Call) :
  count_calls p (h1 ++ h2) = count_calls p h1 + count_calls p h2.
Proof. unfold count_calls. by rewrite filter_app, length_app. Qed.

(** The world [isFeedRestorable] leaves behind: one [GetFeedChange] call. *)
Lemma isFeedRestorable_world w :
  let args := {| GetFeedChangeArgs_FeedId := Some (Get_name (rd w));
                 GetFeedChangeArgs_Project := Some (Get_project_id (rd w)) |} in
  (isFeedRestorable w).2 = called (CallGetFeedChange args) (GetFeedChange args (remote w)).2 w.
Proof.
  intros args. subst args. unfold isFeedRestorable, converter_String. run.
  by destruct (GetFeedChange _ (remote w)) as [[[[[ct|] fd]|] [e|]] r'].
Qed.

(** [restoreFeed] sends the fixed patch and hands the answer of the remote
    side back as it is. *)
Lemma restoreFeed_run w :
  let args := {| RestoreDeletedFeedArgs_FeedId := Some (Get_name (rd w));
                 RestoreDeletedFeedArgs_Project := Some (Get_project_id (rd w));
                 RestoreDeletedFeedArgs_PatchJson :=
                   Some [ {| JsonPatchOperation_From := None;
                             JsonPatchOperation_Op := Some Operation_Replace;
                             JsonPatchOperation_Path := Some "/isDeleted";
                             JsonPatchOperation_Value := VBool false |} ] |} in
  restoreFeed w
  = (Done (RestoreDeletedFeed args (remote w)).1,
     called (CallRestoreDeletedFeed args) (RestoreDeletedFeed args (remote w)).2 w).
Proof.
  intros args. subst args. unfold restoreFeed, restorePatch, converter_String. run.
  by destruct (RestoreDeletedFeed _ (remote w)) as [[e|] r'].
Qed.

(** The tail of Create that talks to [CreateFeed]. *)
Lemma createFeedRemote_run w :
  let args := {| CreateFeedArgs_Feed :=
                   Some {| Feed_Id := None; Feed_Name := Some (Get_name (rd w));
                           Feed_Project := None; Feed_Description := None |};
                 CreateFeedArgs_Project := Some (Get_project_id (rd w)) |} in
  let w1 := called (CallCreateFeed args) (CreateFeed args (remote w)).2 w in
  createFeedRemote (Get_name (rd w)) (Get_project_id (rd w)) w
  = match (CreateFeed args (remote w)).1.2 with
    | Some e =>
        (Done (Some (errorString ("creating new feed. Name: " +:+ Get_name (rd w)
                                  +:+ ", Error: " +:+ Error e))), w1)
    | None => resourceFeedRead w1
    end.
Proof.
  intros args w1. subst args w1. unfold createFeedRemote. run.
  destruct (CreateFeed _ (remote w)) as [[created [e|]] r']; simpl; [| done].
  by rewrite Errorf_creating.
Qed.

(** Create when the [restore] flag is not raised: straight to [CreateFeed]. *)
Lemma create_plain_path w :
  feature "restore" (rd w) = Some false →
  resourceFeedCreate w = createFeedRemote (Get_name (rd w)) (Get_project_id (rd w)) w.
Proof.
  unfold feature, resourceFeedCreate. run.
  destruct (feedFeatures (rd w) !! "restore") as [[[] | |]|]; simpl; done.
Qed.

(** Create when the [restore] flag is raised and the feed is restorable. *)
Lemma create_restore_path w :
  let w1 := (isFeedRestorable w).2 in
  feature "restore" (rd w) = Some true →
  (isFeedRestorable w).1 = Done true →
  resourceFeedCreate w
  = match (restoreFeed w1).1 with
    | Done (Some e) =>
        (Done (Some (errorString ("restoring feed. Name: " +:+ Get_name (rd w)
                                  +:+ ", Error: " +:+ Error e))), (restoreFeed w1).2)
    | Done None => resourceFeedRead (restoreFeed w1).2
    | Panic => (Panic, (restoreFeed w1).2)
    end.
Proof.
  intros w1. subst w1. unfold feature, resourceFeedCreate.
  unfold getd, assert_bool; unfold mbind, M_bind, mret, M_ret.
  destruct (feedFeatures (rd w) !! "restore") as [[[] | |]|]; try done.
  intros _ Hq. cbv beta iota.
  destruct (isFeedRestorable w) as [q w1]. simpl in Hq. subst q.
  cbv beta iota. cbn [fst snd].
  destruct (restoreFeed w1) as [[[e|]|] w2]; simpl; try done.
  by rewrite Errorf_restoring.
Qed.

(** C1: when the [restore] flag is raised and [isFeedRestorable] answers
    [true], Create issues, after the [GetFeedChange] query, exactly one
    [RestoreDeletedFeed] call, addressed by [{FeedId: name, Project:
    project_id}] and carrying the one-operation patch that replaces
    [/isDeleted] by [false]; it never issues [CreateFeed]; and, the restore
    having gone through, it continues as Read and returns what Read
    returns (a failed restore ends Create with an error, without Read). *)
Theorem create_restores_instead_of_creating w :
  let d := rd w in
  let qargs := {| GetFeedChangeArgs_FeedId := Some (Get_name d);
                  GetFeedChangeArgs_Project := Some (Get_project_id d) |} in
  let rargs := {| RestoreDeletedFeedArgs_FeedId := Some (Get_name d);
                  RestoreDeletedFeedArgs_Project := Some (Get_project_id d);
                  RestoreDeletedFeedArgs_PatchJson :=
                    Some [ {| JsonPatchOperation_From := None;
                              JsonPatchOperation_Op := Some Operation_Replace;
                              JsonPatchOperation_Path := Some "/isDeleted";
                              JsonPatchOperation_Value := VBool false |} ] |} in
  let gargs := {| GetFeedArgs_FeedId := Some (Get_name d);
                  GetFeedArgs_Project := Some (Get_project_id d) |} in
  let w1 := called (CallGetFeedChange qargs) (GetFeedChange qargs (remote w)).2 w in
  let restored := RestoreDeletedFeed rargs (remote w1) in
  let w2 := called (CallRestoreDeletedFeed rargs) restored.2 w1 in
  let out := resourceFeedCreate w in
  feature "restore" d = Some true →
  (isFeedRestorable w).1 = Done true →
  match restored.1 with
  | None => out = resourceFeedRead w2
  | Some e =>
      out = (Done (Some (errorString ("restoring feed. Name: " +:+ Get_name d
                                      +:+ ", Error: " +:+ Error e))), w2)
  end
  ∧ calls out.2
    = calls w ++ CallGetFeedChange qargs :: CallRestoreDeletedFeed rargs ::
        match restored.1 with
        | None => [CallGetFeed gargs]
        | Some _ => []
        end
  ∧ count_calls is_RestoreDeletedFeed (calls out.2)
    = S (count_calls is_RestoreDeletedFeed (calls w))
  ∧ count_calls is_CreateFeed (calls out.2) = count_calls is_CreateFeed (calls w).
Proof.
  intros d qargs rargs gargs w1 restored w2 out Hflag Hq.
  assert (Hout : out = match restored.1 with
                       | Some e =>
                           (Done (Some (errorString ("restoring feed. Name: " +:+ Get_name d
                                                     +:+ ", Error: " +:+ Error e))), w2)
                       | None => resourceFeedRead w2
                       end).
  { subst out w2 restored w1 rargs qargs d.
    rewrite (create_restore_path w Hflag Hq), isFeedRestorable_world, restoreFeed_run.
    cbn [fst snd rd remote called].
    by destruct (RestoreDeletedFeed _ _) as [[e|] r2]. }
  assert (Hcalls : calls out.2
                   = calls w ++ CallGetFeedChange qargs :: CallRestoreDeletedFeed rargs ::
                       match restored.1 with
                       | None => [CallGetFeed gargs]
                       | Some _ => []
                       end).
  { rewrite Hout. destruct restored.1 as [e|].
    - subst w2 w1. simpl. by rewrite <- app_assoc.
    - rewrite resourceFeedRead_calls. subst w2 w1. simpl. by rewrite <- !app_assoc. }
  split; [| split; [exact Hcalls | split]].
  - rewrite Hout. by destruct restored.1.
  - rewrite Hcalls, count_calls_app. destruct restored.1; unfold count_calls; simpl; lia.
  - rewrite Hcalls, count_calls_app. destruct restored.1; unfold count_calls; simpl; lia.
Qed.

(** C2: when the [restore] flag is [false], or the key or the whole
    [features] block is absent, Create issues no [GetFeedChange] and no
    [RestoreDeletedFeed]; its first call is [CreateFeed], whose arguments
    are a feed with nothing but the name, and the project id.  When that
    call fails Create returns an error that names the feed and the cause;
    when it succeeds Create continues as Read. *)
Theorem create_without_restore w :
  let d := rd w in
  let cargs := {| CreateFeedArgs_Feed :=
                    Some {| Feed_Id := None; Feed_Name := Some (Get_name d);
                            Feed_Project := None; Feed_Description := None |};
                  CreateFeedArgs_Project := Some (Get_project_id d) |} in
  let gargs := {| GetFeedArgs_FeedId := Some (Get_name d);
                  GetFeedArgs_Project := Some (Get_project_id d) |} in
  let created := CreateFeed cargs (remote w) in
  let w1 := called (CallCreateFeed cargs) created.2 w in
  let out := resourceFeedCreate w in
  feature "restore" d = Some false →
  out = match created.1.2 with
        | Some e =>
            (Done (Some (errorString ("creating new feed. Name: " +:+ Get_name d
                                      +:+ ", Error: " +:+ Error e))), w1)
        | None => resourceFeedRead w1
        end
  ∧ calls out.2
    = calls w ++ CallCreateFeed cargs ::
        match created.1.2 with
        | None => [CallGetFeed gargs]
        | Some _ => []
        end
  ∧ count_calls is_CreateFeed (calls out.2) = S (count_calls is_CreateFeed (calls w))
  ∧ count_calls is_GetFeedChange (calls out.2) = count_calls is_GetFeedChange (calls w)
  ∧ count_calls is_RestoreDeletedFeed (calls out.2)
    = count_calls is_RestoreDeletedFeed (calls w).
Proof.
  intros d cargs gargs created w1 out Hflag.
  assert (Hout : out = match created.1.2 with
                       | Some e =>
                           (Done (Some (errorString ("creating new feed. Name: " +:+ Get_name d
                                                     +:+ ", Error: " +:+ Error e))), w1)
                       | None => resourceFeedRead w1
                       end).
  { subst out. rewrite (create_plain_path w Hflag). apply createFeedRemote_run. }
  assert (Hcalls : calls out.2
                   = calls w ++ CallCreateFeed cargs ::
                       match created.1.2 with
                       | None => [CallGetFeed gargs]
                       | Some _ => []
                       end).
  { rewrite Hout. destruct created.1.2 as [e|].
    - done.
    - rewrite resourceFeedRead_calls. subst w1. simpl. by rewrite <- app_assoc. }
  split; [exact Hout | split; [exact Hcalls |]].
  rewrite Hcalls, !count_calls_app.
  destruct created.1.2; unfold count_calls; simpl; repeat split; lia.
Qed.

(** C6, as the code has it: in the restore branch of Create, [restoreFeed]
    hands the error of the failed [RestoreDeletedFeed] request back
    unchanged, and Create then returns not that error but a new one,
    whose message is ["restoring feed. Name: "], the name, [", Error: "]
    and the text of the remote error. *)
Theorem create_wraps_restore_error w e :
  let d := rd w in
  let rargs := {| RestoreDeletedFeedArgs_FeedId := Some (Get_name d);
                  RestoreDeletedFeedArgs_Project := Some (Get_project_id d);
                  RestoreDeletedFeedArgs_PatchJson :=
                    Some [ {| JsonPatchOperation_From := None;
                              JsonPatchOperation_Op := Some Operation_Replace;
                              JsonPatchOperation_Path := Some "/isDeleted";
                              JsonPatchOperation_Value := VBool false |} ] |} in
  let w1 := (isFeedRestorable w).2 in
  feature "restore" d = Some true →
  (isFeedRestorable w).1 = Done true →
  (RestoreDeletedFeed rargs (remote w1)).1 = Some e →
  (restoreFeed w1).1 = Done (Some e)
  ∧ (resourceFeedCreate w).1
    = Done (Some (errorString ("restoring feed. Name: " +:+ Get_name d
                               +:+ ", Error: " +:+ Error e)))
  ∧ (resourceFeedCreate w).1 ≠ Done (Some e)
  ∧ calls (resourceFeedCreate w).2 = calls w1 ++ [CallRestoreDeletedFeed rargs].
Proof.
  intros d rargs w1 Hflag Hq Hfail.
  assert (Hrd : rd w1 = rd w).
  { subst w1. by rewrite isFeedRestorable_world. }
  assert (Hrest : restoreFeed w1
                  = (Done (Some e),
                     called (CallRestoreDeletedFeed rargs)
                            (RestoreDeletedFeed rargs (remote w1)).2 w1)).
  { rewrite (restoreFeed_run w1), Hrd. subst rargs d. by rewrite Hfail. }
  assert (Hout : resourceFeedCreate w
                 = (Done (Some (errorString ("restoring feed. Name: " +:+ Get_name d
                                             +:+ ", Error: " +:+ Error e))),
                    called (CallRestoreDeletedFeed rargs)
                           (RestoreDeletedFeed rargs (remote w1)).2 w1)).
  { rewrite (create_restore_path w Hflag Hq). fold w1. by rewrite Hrest. }
  rewrite Hrest, Hout. simpl. repeat split.
  intros Heq. injection Heq as Heq. destruct e as [c m|m]; [done |].
  injection Heq as Heq. apply (f_equal String.length) in Heq.
  rewrite !length_append in Heq. simpl in Heq. lia.
Qed.

(** ** Delete *)

(** Delete, run to its end for a well-typed [permanent_delete] flag. *)
Lemma resourceFeedDelete_run w (permanent : bool) :
  let d := rd w in
  let dargs := {| DeleteFeedArgs_FeedId := Some (Get_name d);
                  DeleteFeedArgs_Project := Some (Get_project_id d) |} in
  let pargs := {| PermanentDeleteFeedArgs_FeedId := Some (Get_name d);
                  PermanentDeleteFeedArgs_Project := Some (Get_project_id d) |} in
  let soft := DeleteFeed dargs (remote w) in
  let w1 := called (CallDeleteFeed dargs) soft.2 w in
  let purge := PermanentDeleteFeed pargs (remote w1) in
  let w2 := called (CallPermanentDeleteFeed pargs) purge.2 w1 in
  feature "permanent_delete" d = Some permanent →
  resourceFeedDelete w
  = match soft.1 with
    | Some e => (Done (Some e), w1)
    | None =>
        if permanent then
          match purge.1 with
          | Some e => (Done (Some e), w2)
          | None => (Done None, written (SetId "") w2)
          end
        else (Done None, written (SetId "") w1)
    end.
Proof.
  intros d dargs pargs soft w1 purge w2.
  subst w2 purge w1 soft pargs dargs d. unfold feature, resourceFeedDelete. run.
  destruct (DeleteFeed _ (remote w)) as [[e|] r1]; simpl.
  - by destruct (feedFeatures (rd w) !! "permanent_delete") as [[[] | |]|]; intros [= <-].
  - destruct (feedFeatures (rd w) !! "permanent_delete") as [[[] | |]|];
      intros [= <-]; simpl; try done.
    by destruct (PermanentDeleteFeed _ r1) as [[e|] r2].
Qed.

(** C3: with [permanent_delete] false (or absent) Delete issues exactly
    one call, the soft delete [DeleteFeed], and no [PermanentDeleteFeed];
    with [permanent_delete] true it issues [DeleteFeed] and then, only if
    that succeeded, [PermanentDeleteFeed], both addressed by [{FeedId:
    name, Project: project_id}]. *)
Theorem delete_call_order w (permanent : bool) :
  let d := rd w in
  let dargs := {| DeleteFeedArgs_FeedId := Some (Get_name d);
                  DeleteFeedArgs_Project := Some (Get_project_id d) |} in
  let pargs := {| PermanentDeleteFeedArgs_FeedId := Some (Get_name d);
                  PermanentDeleteFeedArgs_Project := Some (Get_project_id d) |} in
  feature "permanent_delete" d = Some permanent →
  calls (resourceFeedDelete w).2
  = calls w ++ CallDeleteFeed dargs ::
      if permanent then
        match (DeleteFeed dargs (remote w)).1 with
        | None => [CallPermanentDeleteFeed pargs]
        | Some _ => []
        end
      else [].
Proof.
  intros d dargs pargs Hflag. subst pargs dargs d.
  rewrite (resourceFeedDelete_run w permanent Hflag). cbn [fst snd remote called].
  destruct (DeleteFeed _ (remote w)) as [[e|] r1]; cbn [fst snd].
  - by destruct permanent.
  - destruct permanent; [| done].
    destruct (PermanentDeleteFeed _ r1) as [[e|] r2]; simpl; by rewrite <- app_assoc.
Qed.

(** C7: Delete returns the error of the first remote delete call that
    fails, and no error when every call it issues succeeds.  In the latter
    case, and only then, it clears the state identifier: the identifier it
    leaves is the empty string.  After a failed soft delete or a failed
    permanent delete the resource data, the identifier included, is what
    it was. *)
Theorem delete_clears_id_on_success_only w (permanent : bool) :
  let d := rd w in
  let dargs := {| DeleteFeedArgs_FeedId := Some (Get_name d);
                  DeleteFeedArgs_Project := Some (Get_project_id d) |} in
  let pargs := {| PermanentDeleteFeedArgs_FeedId := Some (Get_name d);
                  PermanentDeleteFeedArgs_Project := Some (Get_project_id d) |} in
  let soft := DeleteFeed dargs (remote w) in
  let purge := PermanentDeleteFeed pargs soft.2 in
  let failure := match soft.1 with
                 | Some e => Some e
                 | None => if permanent then purge.1 else None
                 end in
  let out := resourceFeedDelete w in
  feature "permanent_delete" d = Some permanent →
  out.1 = Done failure
  ∧ rd out.2 = match failure with
               | None => SetId "" d
               | Some _ => d
               end
  ∧ (failure = None →
       Id (rd out.2) = ""
       ∧ name (rd out.2) = name d
       ∧ project_id (rd out.2) = project_id d
       ∧ features (rd out.2) = features d)
  ∧ (∀ e, failure = Some e → Id (rd out.2) = Id d).
Proof.
  intros d dargs pargs soft purge failure out Hflag.
  assert (Hrun : out.1 = Done failure
                 ∧ rd out.2 = match failure with
                              | None => SetId "" d
                              | Some _ => d
                              end).
  { subst out failure purge soft pargs dargs d.
    rewrite (resourceFeedDelete_run w permanent Hflag). cbn [fst snd remote called].
    destruct (DeleteFeed _ (remote w)) as [[e|] r1]; cbn [fst snd]; [done |].
    destruct permanent; [| done].
    by destruct (PermanentDeleteFeed _ r1) as [[e|] r2]. }
  destruct Hrun as [Hres Hrd]. split; [exact Hres |]. split; [exact Hrd |].
  rewrite Hrd. split.
  - intros ->. done.
  - intros e ->. done.
Qed.

End properties.

(** ** The theorems at work on the scripted remote side *)

(** Restore flag raised, change history says [Delete]: Create restores the
    feed and reads it back; [CreateFeed] is not among the calls. *)
Lemma create_restores_instead_of_creating_witness :
  calls (resourceFeedCreate (start (pkgs_data [features_block false true]) all_good)).2
  = [CallGetFeedChange pkgs_query; CallRestoreDeletedFeed pkgs_restore; CallGetFeed pkgs_get].
Proof.
  pose proof (create_restores_instead_of_creating
                (start (pkgs_data [features_block false true]) all_good)) as H.
  cbv zeta in H. specialize (H eq_refl eq_refl).
  exact (proj1 (proj2 H)).
Defined.

(** No [features] block: Create creates the feed and reads it back. *)
Lemma create_without_restore_witness :
  calls (resourceFeedCreate (start (pkgs_data []) all_good)).2
  = [CallCreateFeed pkgs_create; CallGetFeed pkgs_get].
Proof.
  pose proof (create_without_restore (start (pkgs_data []) all_good)) as H.
  cbv zeta in H. specialize (H eq_refl).
  exact (proj1 (proj2 H)).
Defined.

(** [permanent_delete] raised and both calls go through: soft delete
    first, purge second. *)
Lemma delete_call_order_witness :
  calls (resourceFeedDelete (start (pkgs_tracked [features_block true false]) all_good)).2
  = [CallDeleteFeed pkgs_delete; CallPermanentDeleteFeed pkgs_purge].
Proof.
  exact (delete_call_order (start (pkgs_tracked [features_block true false]) all_good)
                           true eq_refl).
Defined.

(** The feed is gone on the remote side: Read empties the identifier that
    was tracked and keeps the rest. *)
Lemma read_query_failure_witness :
  (resourceFeedRead {| rd := pkgs_applied []; remote := fetch_fails err_gone; calls := [] |}).1
  = Done None
  ∧ rd (resourceFeedRead
          {| rd := pkgs_applied []; remote := fetch_fails err_gone; calls := [] |}).2
    = {| Id := ""; name := Some "pkgs";
         project_id := Some "11111111-1111-1111-1111-111111111111"; features := [] |}
  ∧ Id (rd (resourceFeedRead
              {| rd := pkgs_applied []; remote := fetch_fails err_gone; calls := [] |}).2)
    = "".
Proof.
  pose proof (read_query_failure
                {| rd := pkgs_applied []; remote := fetch_fails err_gone; calls := [] |}
                err_gone) as H.
  cbv zeta in H. specialize (H eq_refl). destruct H as (Hout & Hgone & _).
  destruct (Hgone eq_refl) as (Hres & Hid & _).
  split; [exact Hres |]. split; [by rewrite Hout | exact Hid].
Defined.

(** The feed is there: Read takes over its id. *)
Lemma read_query_success_witness :
  Id (rd (resourceFeedRead (start (pkgs_data []) all_good)).2) = UUID_String pkgs_id.
Proof.
  pose proof (read_query_success (start (pkgs_data []) all_good) pkgs_feed pkgs_id) as H.
  cbv zeta in H.
  assert (Hproject : ∀ p, Feed_Project pkgs_feed = Some p → is_Some (ProjectReference_Id p)).
  { intros p [= <-]. by eexists. }
  exact (proj1 (proj2 (H eq_refl eq_refl Hproject))).
Defined.

(** A refused restore: the error Create returns has the wrapped message. *)
Lemma create_wraps_restore_error_witness :
  (resourceFeedCreate (start (pkgs_data [features_block false true]) restore_refused)).1
  = Done (Some (errorString "restoring feed. Name: pkgs, Error: internal server error")).
Proof.
  pose proof (create_wraps_restore_error
                (start (pkgs_data [features_block false true]) restore_refused) err_server) as H.
  cbv zeta in H. specialize (H eq_refl eq_refl eq_refl).
  exact (proj1 (proj2 H)).
Defined.

(** A Delete that goes through, purge included, empties the identifier
    that was tracked; a refused purge after a soft delete hands the error
    back and the identifier stays. *)
Lemma delete_clears_id_on_success_only_witness :
  ((resourceFeedDelete
      {| rd := pkgs_applied [features_block true false]; remote := all_good; calls := [] |}).1
   = Done None
   ∧ Id (rd (resourceFeedDelete
               {| rd := pkgs_applied [features_block true false];
                  remote := all_good; calls := [] |}).2)
     = "")
  ∧ ((resourceFeedDelete
        {| rd := pkgs_applied [features_block true false];
           remote := purge_refused; calls := [] |}).1
     = Done (Some err_server)
     ∧ Id (rd (resourceFeedDelete
                 {| rd := pkgs_applied [features_block true false];
                    remote := purge_refused; calls := [] |}).2)
       = "9f4a7c1e-0000-4000-8000-000000000001").
Proof.
  pose proof (delete_clears_id_on_success_only
                {| rd := pkgs_applied [features_block true false];
                   remote := all_good; calls := [] |} true) as Hgood.
  pose proof (delete_clears_id_on_success_only
                {| rd := pkgs_applied [features_block true false];
                   remote := purge_refused; calls := [] |} true) as Hbad.
  cbv zeta in Hgood, Hbad.
  destruct (Hgood eq_refl) as (Hres & _ & Hcleared & _).
  destruct (Hbad eq_refl) as (Hres' & _ & _ & Hkept).
  split; [split; [exact Hres | exact (proj1 (Hcleared eq_refl))] |].
  split; [exact Hres' | exact (Hkept err_server eq_refl)].
Defined.

(** C6, as the claim words it, fails on this run: the restore branch is
    taken, the restore request fails with [err_server], [restoreFeed] hands
    that error back, and yet what Create returns is another error. *)
Lemma create_restore_error_not_verbatim :
  feature "restore" (pkgs_data [features_block false true]) = Some true
  ∧ (isFeedRestorable (start (pkgs_data [features_block false true]) restore_refused)).1
    = Done true
  ∧ (restoreFeed
       (isFeedRestorable (start (pkgs_data [features_block false true]) restore_refused)).2).1
    = Done (Some err_server)
  ∧ (resourceFeedCreate (start (pkgs_data [features_block false true]) restore_refused)).1
    = Done (Some (errorString "restoring feed. Name: pkgs, Error: internal server error"))
  ∧ (resourceFeedCreate (start (pkgs_data [features_block false true]) restore_refused)).1
    ≠ Done (Some err_server).
Proof. repeat split; try reflexivity. vm_compute. discriminate. Qed.

(** The check fails closed when the history cannot be queried, and Create
    then falls through to [CreateFeed]. *)
Example history_down_is_not_restorable :
  (isFeedRestorable (start (pkgs_data [features_block false true]) history_down)).1 = Done false
  ∧ calls (resourceFeedCreate (start (pkgs_data [features_block false true]) history_down)).2
    = [CallGetFeedChange pkgs_query; CallCreateFeed pkgs_create; CallGetFeed pkgs_get].
Proof. split; reflexivity. Qed.

(** A change record without change type: the check panics, and Create with it. *)
Example change_untyped_panics :
  (isFeedRestorable (start (pkgs_data [features_block false true]) change_untyped)).1 = Panic
  ∧ (resourceFeedCreate (start (pkgs_data [features_block false true]) change_untyped)).1 = Panic.
Proof. split; reflexivity. Qed.

(** Create of [{name: "pkgs", project_id: ..., features: {}}]: the state
    carries the id the server assigned and the name. *)
Example create_pkgs :
  resourceFeedCreate (start (pkgs_data [features_block false false]) all_good)
  = (Done None,
     {| rd := pkgs_tracked [features_block false false];
        remote := all_good;
        calls := [CallCreateFeed pkgs_create; CallGetFeed pkgs_get] |}).
Proof. reflexivity. Qed.

(** * Further properties of the handlers *)

Section further.
Context {R : Type} `{!FeedClient R}.

Implicit Types (w : World R) (d : ResourceData) (e : error).

Ltac run :=
  unfold mbind, M_bind, mret, M_ret, getd, setd, invoke, deref, assert_bool, panic; simpl.

(** Read, run to its end on every answer of [GetFeed]. *)
Lemma resourceFeedRead_run w :
  let args := {| GetFeedArgs_FeedId := Some (Get_name (rd w));
                 GetFeedArgs_Project := Some (Get_project_id (rd w)) |} in
  let w1 := called (CallGetFeed args) (GetFeed args (remote w)).2 w in
  resourceFeedRead w
  = match (GetFeed args (remote w)).1.2 with
    | Some e =>
        if ResponseWasNotFound e
        then (Done None, written (SetId "") w1)
        else (Done (Some (errorString (" reading feed during read: " +:+ Error e))), w1)
    | None =>
        match (GetFeed args (remote w)).1.1 with
        | None => (Done None, w1)
        | Some f =>
            match Feed_Id f with
            | None => (Panic, w1)
            | Some u =>
                let w2 := written (Set_name (Feed_Name f))
                                  (written (SetId (UUID_String u)) w1) in
                match Feed_Project f with
                | None => (Done None, w2)
                | Some p =>
                    match ProjectReference_Id p with
                    | None => (Panic, w2)
                    | Some pid => (Done None, written (Set_project_id (UUID_String pid)) w2)
                    end
                end
            end
        end
    end.
Proof.
  intros args w1. subst w1 args. unfold resourceFeedRead. run.
  destruct (GetFeed _ (remote w)) as [[getFeed [e|]] r']; simpl.
  - destruct (ResponseWasNotFound e); [done |]. by rewrite Errorf_reading.
  - by destruct getFeed as [[[u|] nm [[[pid|] pn]|] ds]|].
Qed.

(** Create, split along the [restore] flag and the answer of the check. *)
Lemma resourceFeedCreate_cases w :
  resourceFeedCreate w
  = match feedFeatures (rd w) !! "restore" with
    | Some (VBool true) =>
        match isFeedRestorable w with
        | (Done true, w1) =>
            match restoreFeed w1 with
            | (Done (Some e), w2) =>
                (Done (Some (errorString ("restoring feed. Name: " +:+ Get_name (rd w)
                                          +:+ ", Error: " +:+ Error e))), w2)
            | (Done None, w2) => resourceFeedRead w2
            | (Panic, w2) => (Panic, w2)
            end
        | (Done false, w1) => createFeedRemote (Get_name (rd w)) (Get_project_id (rd w)) w1
        | (Panic, w1) => (Panic, w1)
        end
    | Some (VBool false) | None =>
        createFeedRemote (Get_name (rd w)) (Get_project_id (rd w)) w
    | Some _ => (Panic, w)
    end.
Proof.
  unfold resourceFeedCreate.
  unfold getd, assert_bool, panic; unfold mbind, M_bind, mret, M_ret.
  destruct (feedFeatures (rd w) !! "restore") as [[[] | |]|]; try done.
  cbv beta iota.
  destruct (isFeedRestorable w) as [[[]|] w1]; try done.
  cbv beta iota.
  destruct (restoreFeed w1) as [[[e|]|] w2]; try done.
  by rewrite Errorf_restoring.
Qed.

(** X1: whatever [GetFeed] answers, and also when the handler panics on
    the answer, Read issues exactly one remote call, the [GetFeed] query
    addressed by the current name and project id; the remote side is
    moved by that query alone and the [features] blocks are not written. *)
Theorem read_queries_once_and_only_reads w :
  let args := {| GetFeedArgs_FeedId := Some (Get_name (rd w));
                 GetFeedArgs_Project := Some (Get_project_id (rd w)) |} in
  let out := resourceFeedRead w in
  calls out.2 = calls w ++ [CallGetFeed args]
  ∧ remote out.2 = (GetFeed args (remote w)).2
  ∧ features (rd out.2) = features (rd w).
Proof.
  intros args out. subst out args. rewrite resourceFeedRead_run. cbv zeta.
  destruct (GetFeed _ (remote w)) as [[[[[u|] nm [[[pid|] pn]|] ds]|] [e|]] r'];
    cbn [fst snd]; try destruct (ResponseWasNotFound e); done.
Qed.

(** X2: Read is idempotent.  When a Read came back (with or without an
    error) and the next [GetFeed] query, addressed by the data that Read
    left, gets the same answer, a second Read returns the same result and
    leaves the resource data as the first one left it. *)
Theorem read_twice_same_state w (r : option error) :
  let args := {| GetFeedArgs_FeedId := Some (Get_name (rd w));
                 GetFeedArgs_Project := Some (Get_project_id (rd w)) |} in
  let out1 := resourceFeedRead w in
  let args2 := {| GetFeedArgs_FeedId := Some (Get_name (rd out1.2));
                  GetFeedArgs_Project := Some (Get_project_id (rd out1.2)) |} in
  let out2 := resourceFeedRead out1.2 in
  out1.1 = Done r →
  (GetFeed args2 (remote out1.2)).1 = (GetFeed args (remote w)).1 →
  out2.1 = Done r ∧ rd out2.2 = rd out1.2.
Proof.
  intros args out1 args2 out2. subst out2 args2.
  rewrite (resourceFeedRead_run out1.2). cbv zeta.
  subst out1 args. rewrite (resourceFeedRead_run w). cbv zeta.
  destruct (GetFeed _ (remote w)) as [[[[[u|] nm [[[pid|] pn]|] ds]|] [e|]] r1];
    cbn [fst snd]; try destruct (ResponseWasNotFound e) eqn:Hnf;
    cbn [fst snd rd written called]; intros Hr Hsame; try done;
    rewrite Hsame; cbn [fst snd Feed_Id Feed_Name Feed_Project ProjectReference_Id];
    rewrite ?Hnf; split; try done.
Qed.

(** X3: when the [restore] flag is raised but [isFeedRestorable] answers
    [false] (the feed was never deleted, or the history query failed),
    Create falls through to a plain create: after the [GetFeedChange]
    query it issues [CreateFeed] with the name and the project id, never
    [RestoreDeletedFeed], and continues as Read when the create succeeds;
    the error of a failed history query is not reported. *)
Theorem create_falls_through_when_not_restorable w :
  let d := rd w in
  let qargs := {| GetFeedChangeArgs_FeedId := Some (Get_name d);
                  GetFeedChangeArgs_Project := Some (Get_project_id d) |} in
  let cargs := {| CreateFeedArgs_Feed :=
                    Some {| Feed_Id := None; Feed_Name := Some (Get_name d);
                            Feed_Project := None; Feed_Description := None |};
                  CreateFeedArgs_Project := Some (Get_project_id d) |} in
  let gargs := {| GetFeedArgs_FeedId := Some (Get_name d);
                  GetFeedArgs_Project := Some (Get_project_id d) |} in
  let w1 := called (CallGetFeedChange qargs) (GetFeedChange qargs (remote w)).2 w in
  let created := CreateFeed cargs (remote w1) in
  let w2 := called (CallCreateFeed cargs) created.2 w1 in
  let out := resourceFeedCreate w in
  feature "restore" d = Some true →
  (isFeedRestorable w).1 = Done false →
  out = match created.1.2 with
        | Some e =>
            (Done (Some (errorString ("creating new feed. Name: " +:+ Get_name d
                                      +:+ ", Error: " +:+ Error e))), w2)
        | None => resourceFeedRead w2
        end
  ∧ calls out.2
    = calls w ++ CallGetFeedChange qargs :: CallCreateFeed cargs ::
        match created.1.2 with
        | None => [CallGetFeed gargs]
        | Some _ => []
        end.
Proof.
  intros d qargs cargs gargs w1 created w2 out Hflag Hq.
  assert (Hout : out = match created.1.2 with
                       | Some e =>
                           (Done (Some (errorString ("creating new feed. Name: " +:+ Get_name d
                                                     +:+ ", Error: " +:+ Error e))), w2)
                       | None => resourceFeedRead w2
                       end).
  { subst out. rewrite resourceFeedCreate_cases.
    apply feature_true in Hflag. unfold d in Hflag. rewrite Hflag.
    pose proof (isFeedRestorable_world w) as Hw. cbv zeta in Hw.
    destruct (isFeedRestorable w) as [q w1']. cbn [fst snd] in Hq, Hw. subst q w1'.
    apply (createFeedRemote_run w1). }
  split; [exact Hout |]. rewrite Hout.
  destruct created.1.2 as [e|].
  - subst w2 w1. simpl. by rewrite <- app_assoc.
  - rewrite resourceFeedRead_calls. subst w2 w1. simpl. by rewrite <- !app_assoc.
Qed.

(** X4: when the [restore] flag is raised and the history query succeeds
    without a change record or without a change type, Create panics: the
    [GetFeedChange] query is the only call it has issued, the feed is
    neither created nor restored, and the resource data is untouched. *)
Theorem create_panics_with_the_check w :
  let d := rd w in
  let qargs := {| GetFeedChangeArgs_FeedId := Some (Get_name d);
                  GetFeedChangeArgs_Project := Some (Get_project_id d) |} in
  let out := resourceFeedCreate w in
  feature "restore" d = Some true →
  (isFeedRestorable w).1 = Panic →
  out.1 = Panic
  ∧ calls out.2 = calls w ++ [CallGetFeedChange qargs]
  ∧ rd out.2 = d.
Proof.
  intros d qargs out Hflag Hq. subst out. rewrite resourceFeedCreate_cases.
  apply feature_true in Hflag. unfold d in Hflag. rewrite Hflag.
  pose proof (isFeedRestorable_world w) as Hw. cbv zeta in Hw.
  destruct (isFeedRestorable w) as [q w1']. cbn [fst snd] in Hq, Hw. by subst q w1'.
Qed.

(** A message longer than the text of an error is not that error. *)
Lemma longer_message_differs (msg : string) e :
  (String.length (Error e) < String.length msg)%nat → errorString msg ≠ e.
Proof. intros Hlen <-. simpl in Hlen. lia. Qed.

(** An error that Read returns is the message Read builds around the
    error of its failed [GetFeed] query. *)
Lemma resourceFeedRead_error_cause w e :
  let args := {| GetFeedArgs_FeedId := Some (Get_name (rd w));
                 GetFeedArgs_Project := Some (Get_project_id (rd w)) |} in
  (resourceFeedRead w).1 = Done (Some e) →
  ∃ cause, (GetFeed args (remote w)).1.2 = Some cause
           ∧ e = errorString (" reading feed during read: " +:+ Error cause)
           ∧ e ≠ cause.
Proof.
  intros args. subst args. rewrite resourceFeedRead_run. cbv zeta.
  destruct (GetFeed _ (remote w)) as [[[[[u|] nm [[[pid|] pn]|] ds]|] [e'|]] r'];
    cbn [fst snd]; try destruct (ResponseWasNotFound e'); intros [= <-];
    (exists e'; split; [done | split; [done |]]);
    apply longer_message_differs; rewrite length_append; simpl; lia.
Qed.

(** An error of the tail of Create is the message built around the error
    of the failed [CreateFeed] call, or the one Read builds. *)
Lemma createFeedRemote_error_cause w e :
  let cargs := {| CreateFeedArgs_Feed :=
                    Some {| Feed_Id := None; Feed_Name := Some (Get_name (rd w));
                            Feed_Project := None; Feed_Description := None |};
                  CreateFeedArgs_Project := Some (Get_project_id (rd w)) |} in
  let gargs := {| GetFeedArgs_FeedId := Some (Get_name (rd w));
                  GetFeedArgs_Project := Some (Get_project_id (rd w)) |} in
  (createFeedRemote (Get_name (rd w)) (Get_project_id (rd w)) w).1 = Done (Some e) →
  ∃ cause,
    (((CreateFeed cargs (remote w)).1.2 = Some cause
      ∧ e = errorString ("creating new feed. Name: " +:+ Get_name (rd w)
                         +:+ ", Error: " +:+ Error cause))
     ∨ ((CreateFeed cargs (remote w)).1.2 = None
        ∧ (GetFeed gargs (CreateFeed cargs (remote w)).2).1.2 = Some cause
        ∧ e = errorString (" reading feed during read: " +:+ Error cause)))
    ∧ e ≠ cause.
Proof.
  intros cargs gargs. subst gargs cargs. rewrite createFeedRemote_run. cbv zeta.
  destruct (CreateFeed _ (remote w)) as [[created [e'|]] r']; cbn [fst snd].
  - intros [= <-]. exists e'. split; [by left |].
    apply longer_message_differs. rewrite !length_append. simpl. lia.
  - intros Hread. apply resourceFeedRead_error_cause in Hread.
    destruct Hread as (cause & Hget & He & Hne). exists cause. split; [| done].
    right. by repeat split.
Qed.

(** The calls of the tail of Create. *)
Lemma createFeedRemote_calls (n p : string) w :
  let args := {| CreateFeedArgs_Feed :=
                   Some {| Feed_Id := None; Feed_Name := Some n;
                           Feed_Project := None; Feed_Description := None |};
                 CreateFeedArgs_Project := Some p |} in
  calls (createFeedRemote n p w).2
  = calls w ++ CallCreateFeed args ::
      match (CreateFeed args (remote w)).1.2 with
      | None => [CallGetFeed {| GetFeedArgs_FeedId := Some (Get_name (rd w));
                                GetFeedArgs_Project := Some (Get_project_id (rd w)) |}]
      | Some _ => []
      end
  ∧ features (rd (createFeedRemote n p w).2) = features (rd w).
Proof.
  intros args. subst args. unfold createFeedRemote. run.
  destruct (CreateFeed _ (remote w)) as [[created [e'|]] r']; simpl; [done |].
  rewrite resourceFeedRead_calls, resourceFeedRead_features. simpl.
  by rewrite <- app_assoc.
Qed.

(** Update, run up to Read. *)
Lemma resourceFeedUpdate_run w :
  let args := {| UpdateFeedArgs_Feed :=
                   Some {| FeedUpdate_Name := None; FeedUpdate_Description := None;
                           FeedUpdate_HideDeletedPackageVersions := None;
                           FeedUpdate_UpstreamEnabled := None |};
                 UpdateFeedArgs_FeedId := Some (Get_name (rd w));
                 UpdateFeedArgs_Project := Some (Get_project_id (rd w)) |} in
  let w1 := called (CallUpdateFeed args) (UpdateFeed args (remote w)).2 w in
  resourceFeedUpdate w
  = match (UpdateFeed args (remote w)).1.2 with
    | Some e => (Done (Some e), w1)
    | None => resourceFeedRead w1
    end.
Proof.
  intros args w1. subst w1 args. unfold resourceFeedUpdate. run.
  by destruct (UpdateFeed _ (remote w)) as [[upd [e|]] r'].
Qed.

(** X5: every error that Create or Read returns was built by
    [fmt.Errorf] around the error [cause] of a failed remote call: its
    message is [" reading feed during read: "], or ["creating new feed.
    Name: <name>, Error: "], or ["restoring feed. Name: <name>, Error: "],
    followed by the text of [cause], where [cause] is what [GetFeed],
    [CreateFeed] or [RestoreDeletedFeed] answered to the handler's
    arguments; and it is never [cause] itself, so the error value of the
    remote layer does not reach the caller. *)
Theorem create_and_read_errors_are_rebuilt w e :
  let d := rd w in
  let gargs := {| GetFeedArgs_FeedId := Some (Get_name d);
                  GetFeedArgs_Project := Some (Get_project_id d) |} in
  let cargs := {| CreateFeedArgs_Feed :=
                    Some {| Feed_Id := None; Feed_Name := Some (Get_name d);
                            Feed_Project := None; Feed_Description := None |};
                  CreateFeedArgs_Project := Some (Get_project_id d) |} in
  let rargs := {| RestoreDeletedFeedArgs_FeedId := Some (Get_name d);
                  RestoreDeletedFeedArgs_Project := Some (Get_project_id d);
                  RestoreDeletedFeedArgs_PatchJson :=
                    Some [ {| JsonPatchOperation_From := None;
                              JsonPatchOperation_Op := Some Operation_Replace;
                              JsonPatchOperation_Path := Some "/isDeleted";
                              JsonPatchOperation_Value := VBool false |} ] |} in
  (resourceFeedRead w).1 = Done (Some e) ∨ (resourceFeedCreate w).1 = Done (Some e) →
  ∃ cause (r : R),
    (((GetFeed gargs r).1.2 = Some cause
      ∧ e = errorString (" reading feed during read: " +:+ Error cause))
     ∨ ((CreateFeed cargs r).1.2 = Some cause
        ∧ e = errorString ("creating new feed. Name: " +:+ Get_name d
                           +:+ ", Error: " +:+ Error cause))
     ∨ ((RestoreDeletedFeed rargs r).1 = Some cause
        ∧ e = errorString ("restoring feed. Name: " +:+ Get_name d
                           +:+ ", Error: " +:+ Error cause)))
    ∧ e ≠ cause.
Proof.
  intros d gargs cargs rargs. subst rargs cargs gargs d.
  assert (Hread : ∀ w', rd w' = rd w → (resourceFeedRead w').1 = Done (Some e) →
            ∃ cause (r : R),
              (((GetFeed {| GetFeedArgs_FeedId := Some (Get_name (rd w));
                            GetFeedArgs_Project := Some (Get_project_id (rd w)) |} r).1.2
                = Some cause
                ∧ e = errorString (" reading feed during read: " +:+ Error cause))
               ∨ ((CreateFeed
                     {| CreateFeedArgs_Feed :=
                          Some {| Feed_Id := None; Feed_Name := Some (Get_name (rd w));
                                  Feed_Project := None; Feed_Description := None |};
                        CreateFeedArgs_Project := Some (Get_project_id (rd w)) |} r).1.2
                  = Some cause
                  ∧ e = errorString ("creating new feed. Name: " +:+ Get_name (rd w)
                                     +:+ ", Error: " +:+ Error cause))
               ∨ ((RestoreDeletedFeed
                     {| RestoreDeletedFeedArgs_FeedId := Some (Get_name (rd w));
                        RestoreDeletedFeedArgs_Project := Some (Get_project_id (rd w));
                        RestoreDeletedFeedArgs_PatchJson :=
                          Some [ {| JsonPatchOperation_From := None;
                                    JsonPatchOperation_Op := Some Operation_Replace;
                                    JsonPatchOperation_Path := Some "/isDeleted";
                                    JsonPatchOperation_Value := VBool false |} ] |} r).1
                  = Some cause
                  ∧ e = errorString ("restoring feed. Name: " +:+ Get_name (rd w)
                                     +:+ ", Error: " +:+ Error cause)))
              ∧ e ≠ cause).
  { intros w' Hrd Hr. apply resourceFeedRead_error_cause in Hr. cbv zeta in Hr.
    rewrite Hrd in Hr. destruct Hr as (cause & Hget & He & Hne).
    exists cause, (remote w'). split; [| done]. by left. }
  assert (Htail : ∀ w', rd w' = rd w →
            (createFeedRemote (Get_name (rd w)) (Get_project_id (rd w)) w').1
            = Done (Some e) →
            ∃ cause (r : R),
              (((GetFeed {| GetFeedArgs_FeedId := Some (Get_name (rd w));
                            GetFeedArgs_Project := Some (Get_project_id (rd w)) |} r).1.2
                = Some cause
                ∧ e = errorString (" reading feed during read: " +:+ Error cause))
               ∨ ((CreateFeed
                     {| CreateFeedArgs_Feed :=
                          Some {| Feed_Id := None; Feed_Name := Some (Get_name (rd w));
                                  Feed_Project := None; Feed_Description := None |};
                        CreateFeedArgs_Project := Some (Get_project_id (rd w)) |} r).1.2
                  = Some cause
                  ∧ e = errorString ("creating new feed. Name: " +:+ Get_name (rd w)
                                     +:+ ", Error: " +:+ Error cause))
               ∨ ((RestoreDeletedFeed
                     {| RestoreDeletedFeedArgs_FeedId := Some (Get_name (rd w));
                        RestoreDeletedFeedArgs_Project := Some (Get_project_id (rd w));
                        RestoreDeletedFeedArgs_PatchJson :=
                          Some [ {| JsonPatchOperation_From := None;
                                    JsonPatchOperation_Op := Some Operation_Replace;
                                    JsonPatchOperation_Path := Some "/isDeleted";
                                    JsonPatchOperation_Value := VBool false |} ] |} r).1
                  = Some cause
                  ∧ e = errorString ("restoring feed. Name: " +:+ Get_name (rd w)
                                     +:+ ", Error: " +:+ Error cause)))
              ∧ e ≠ cause).
  { intros w' Hrd Hc. rewrite <- Hrd in Hc. apply createFeedRemote_error_cause in Hc.
    cbv zeta in Hc. rewrite Hrd in Hc.
    destruct Hc as (cause & [[Hcr He]|(Hok & Hget & He)] & Hne).
    - exists cause, (remote w'). split; [| done]. right. by left.
    - eexists cause, _. split; [| done]. left. by split. }
  intros [Hr|Hcreate]; [by apply (Hread w) |].
  rewrite resourceFeedCreate_cases in Hcreate.
  destruct (feedFeatures (rd w) !! "restore") as [[[] | |]|];
    try (by apply (Htail w)); try done.
  pose proof (isFeedRestorable_world w) as Hw. cbv zeta in Hw.
  destruct (isFeedRestorable w) as [[[]|] w1]; cbn [snd] in Hw; subst w1; try done.
  - rewrite restoreFeed_run in Hcreate. cbn [rd remote called] in Hcreate.
    destruct (RestoreDeletedFeed _ _) as [[e'|] r2] eqn:Hrest; cbn [fst snd] in Hcreate.
    + injection Hcreate as <-. eexists e', _. split.
      * right. right. split; [by rewrite Hrest | done].
      * apply longer_message_differs. rewrite !length_append. simpl. lia.
    + by apply Hread in Hcreate.
  - by apply Htail in Hcreate.
Qed.

(** X6: an error that Update returns is either the very error of the
    failed [UpdateFeed] call or, the update having succeeded, the message
    [" reading feed during read: "] followed by the text of the error of
    the failed [GetFeed] query, which is never that error itself: the two
    failures of Update reach the caller in different shapes. *)
Theorem update_error_shapes w e :
  let args := {| UpdateFeedArgs_Feed :=
                   Some {| FeedUpdate_Name := None; FeedUpdate_Description := None;
                           FeedUpdate_HideDeletedPackageVersions := None;
                           FeedUpdate_UpstreamEnabled := None |};
                 UpdateFeedArgs_FeedId := Some (Get_name (rd w));
                 UpdateFeedArgs_Project := Some (Get_project_id (rd w)) |} in
  let gargs := {| GetFeedArgs_FeedId := Some (Get_name (rd w));
                  GetFeedArgs_Project := Some (Get_project_id (rd w)) |} in
  (resourceFeedUpdate w).1 = Done (Some e) →
  (UpdateFeed args (remote w)).1.2 = Some e
  ∨ ((UpdateFeed args (remote w)).1.2 = None
     ∧ ∃ cause, (GetFeed gargs (UpdateFeed args (remote w)).2).1.2 = Some cause
                ∧ e = errorString (" reading feed during read: " +:+ Error cause)
                ∧ e ≠ cause).
Proof.
  intros args gargs. subst gargs args. rewrite resourceFeedUpdate_run. cbv zeta.
  destruct (UpdateFeed _ (remote w)) as [[upd [e'|]] r']; cbn [fst snd].
  - intros [= <-]. by left.
  - intros Hread. right. split; [done |].
    by apply resourceFeedRead_error_cause in Hread.
Qed.

(** X7: no handler writes the [features] blocks: whatever the flags and
    whatever the remote side answers, also when the handler panics, the
    blocks that Create, Update and Delete leave are the ones they found. *)
Theorem handlers_never_write_features w :
  features (rd (resourceFeedCreate w).2) = features (rd w)
  ∧ features (rd (resourceFeedUpdate w).2) = features (rd w)
  ∧ features (rd (resourceFeedDelete w).2) = features (rd w).
Proof.
  split; [| split].
  - rewrite resourceFeedCreate_cases.
    destruct (feedFeatures (rd w) !! "restore") as [[[] | |]|];
      try apply createFeedRemote_calls; try done.
    pose proof (isFeedRestorable_world w) as Hw. cbv zeta in Hw.
    destruct (isFeedRestorable w) as [[[]|] w1]; cbn [snd] in Hw; subst w1; try done.
    + rewrite restoreFeed_run. cbn [rd remote called].
      destruct (RestoreDeletedFeed _ _) as [[e|] r2]; cbn [fst snd]; [done |].
      by rewrite resourceFeedRead_features.
    + by rewrite (proj2 (createFeedRemote_calls _ _ _)).
  - rewrite resourceFeedUpdate_run. cbv zeta.
    destruct (UpdateFeed _ (remote w)) as [[upd [e'|]] r']; cbn [fst snd]; [done |].
    by rewrite resourceFeedRead_features.
  - unfold resourceFeedDelete. run.
    destruct (DeleteFeed _ (remote w)) as [[e|] r1]; simpl; [done |].
    destruct (feedFeatures (rd w) !! "permanent_delete") as [[[] | |]|]; simpl; try done.
    by destruct (PermanentDeleteFeed _ r1) as [[e|] r2].
Qed.

(** X8: a plain Create whose [CreateFeed] call succeeded but whose
    read-back finds no feed (the [GetFeed] query fails with a not-found
    error) returns no error and leaves the state identifier empty. *)
Theorem create_read_back_not_found w e :
  let d := rd w in
  let cargs := {| CreateFeedArgs_Feed :=
                    Some {| Feed_Id := None; Feed_Name := Some (Get_name d);
                            Feed_Project := None; Feed_Description := None |};
                  CreateFeedArgs_Project := Some (Get_project_id d) |} in
  let gargs := {| GetFeedArgs_FeedId := Some (Get_name d);
                  GetFeedArgs_Project := Some (Get_project_id d) |} in
  let created := CreateFeed cargs (remote w) in
  let out := resourceFeedCreate w in
  feature "restore" d = Some false →
  created.1.2 = None →
  (GetFeed gargs created.2).1.2 = Some e →
  ResponseWasNotFound e = true →
  out.1 = Done None ∧ Id (rd out.2) = "".
Proof.
  intros d cargs gargs created out Hflag Hcreated Hget Hnf.
  subst out. rewrite (create_plain_path w Hflag), createFeedRemote_run. cbv zeta.
  fold d cargs created. rewrite Hcreated.
  rewrite resourceFeedRead_run. cbv zeta. cbn [rd remote called].
  fold d gargs. rewrite Hget, Hnf. done.
Qed.

(** X9: the state a plain Create returns is the one of the read-back, not
    the answer of [CreateFeed]: when the create succeeded and the
    [GetFeed] query that follows answers with a feed that has an id, the
    state identifier is that id and [name] is the name of that feed,
    whatever feed [CreateFeed] itself handed back. *)
Theorem create_state_from_read_back w (f : Feed) (u : UUID) :
  let d := rd w in
  let cargs := {| CreateFeedArgs_Feed :=
                    Some {| Feed_Id := None; Feed_Name := Some (Get_name d);
                            Feed_Project := None; Feed_Description := None |};
                  CreateFeedArgs_Project := Some (Get_project_id d) |} in
  let gargs := {| GetFeedArgs_FeedId := Some (Get_name d);
                  GetFeedArgs_Project := Some (Get_project_id d) |} in
  let created := CreateFeed cargs (remote w) in
  let out := resourceFeedCreate w in
  feature "restore" d = Some false →
  created.1.2 = None →
  (GetFeed gargs created.2).1 = (Some f, None) →
  Feed_Id f = Some u →
  (∀ p, Feed_Project f = Some p → is_Some (ProjectReference_Id p)) →
  out.1 = Done None
  ∧ Id (rd out.2) = UUID_String u
  ∧ name (rd out.2) = Feed_Name f.
Proof.
  intros d cargs gargs created out Hflag Hcreated Hget Hid Hproj.
  subst out. rewrite (create_plain_path w Hflag), createFeedRemote_run. cbv zeta.
  fold d cargs created. rewrite Hcreated.
  rewrite resourceFeedRead_run. cbv zeta. cbn [rd remote called].
  fold d gargs. rewrite Hget. cbn [fst snd]. rewrite Hid.
  destruct (Feed_Project f) as [p|] eqn:Hp; [| done].
  by destruct (Hproj p eq_refl) as [pid ->].
Qed.

(** X10: when [GetFeed] answers with neither an error nor a feed, Read
    returns no error and writes nothing: the state identifier and the
    fields stay what they were. *)
Theorem read_empty_answer_keeps_state w :
  let args := {| GetFeedArgs_FeedId := Some (Get_name (rd w));
                 GetFeedArgs_Project := Some (Get_project_id (rd w)) |} in
  let out := resourceFeedRead w in
  (GetFeed args (remote w)).1 = (None, None) →
  out.1 = Done None ∧ rd out.2 = rd w.
Proof.
  intros args out Hresp. subst out args. rewrite resourceFeedRead_run. cbv zeta.
  by rewrite Hresp.
Qed.

(** X11: Read comes back exactly when the query failed, or answered no
    feed, or answered a feed with an id whose nested project, if any, has
    an id too.  A feed without id makes Read panic before it wrote
    anything; a nested project without id makes it panic after the state
    identifier and the name were already written. *)
Theorem read_returns_iff_ids_present w :
  let args := {| GetFeedArgs_FeedId := Some (Get_name (rd w));
                 GetFeedArgs_Project := Some (Get_project_id (rd w)) |} in
  let resp := (GetFeed args (remote w)).1 in
  let out := resourceFeedRead w in
  ((∃ r, out.1 = Done r)
   ↔ is_Some resp.2 ∨ resp.1 = None
     ∨ ∃ f u, resp.1 = Some f ∧ Feed_Id f = Some u
              ∧ ∀ p, Feed_Project f = Some p → is_Some (ProjectReference_Id p))
  ∧ (∀ f, resp = (Some f, None) → Feed_Id f = None → out.1 = Panic ∧ rd out.2 = rd w)
  ∧ (∀ f u p, resp = (Some f, None) → Feed_Id f = Some u → Feed_Project f = Some p →
       ProjectReference_Id p = None →
       out.1 = Panic ∧ Id (rd out.2) = UUID_String u ∧ name (rd out.2) = Feed_Name f).
Proof.
  intros args resp out. subst out resp args. rewrite resourceFeedRead_run. cbv zeta.
  destruct (GetFeed _ (remote w)) as [[[[[u|] nm [[[pid|] pn]|] ds]|] [e|]] r'];
    cbn [fst snd Feed_Id Feed_Project ProjectReference_Id];
    try destruct (ResponseWasNotFound e);
    (split; [split; [intros [r Hr] | intros [[e' He]|[Hnone|(f & u' & Hf & Hid & Hp)]]] |
             split; [intros f Hresp Hid | intros f u' p Hresp Hid Hp Hpid]]);
    simplify_eq/=; try done; try (by eexists);
    try (left; by eexists); try (right; by left).
  all: try (right; right; eexists _, _; split; [reflexivity | split; [reflexivity |]];
            simpl; intros p [= <-]; by eexists).
  all: match goal with
       | Hp : ∀ p, _ → is_Some _ |- _ => by destruct (Hp _ eq_refl)
       end.
Qed.

(** X12: in every run, whatever the flags and the answers, Create issues
    at most three remote calls, and at most one of them creates or
    restores: it never both restores and creates the feed. *)
Theorem create_call_budget w :
  ∃ issued,
    calls (resourceFeedCreate w).2 = calls w ++ issued
    ∧ (List.length issued ≤ 3)%nat
    ∧ (count_calls is_CreateFeed issued + count_calls is_RestoreDeletedFeed issued ≤ 1)%nat.
Proof.
  rewrite resourceFeedCreate_cases.
  assert (Htail : ∀ w' pre, calls w' = calls w ++ pre → (List.length pre ≤ 1)%nat →
            count_calls is_CreateFeed pre + count_calls is_RestoreDeletedFeed pre = 0 →
            ∃ issued,
              calls (createFeedRemote (Get_name (rd w)) (Get_project_id (rd w)) w').2
              = calls w ++ issued
              ∧ (List.length issued ≤ 3)%nat
              ∧ (count_calls is_CreateFeed issued
                 + count_calls is_RestoreDeletedFeed issued ≤ 1)%nat).
  { intros w' pre Hpre Hlen Hcount.
    rewrite (proj1 (createFeedRemote_calls _ _ w')), Hpre, <- app_assoc.
    eexists. split; [reflexivity |].
    rewrite !count_calls_app, length_app.
    destruct (CreateFeed _ (remote w')).1.2; unfold count_calls in *; simpl; split; lia. }
  destruct (feedFeatures (rd w) !! "restore") as [[[] | |]|].
  - pose proof (isFeedRestorable_world w) as Hw. cbv zeta in Hw.
    destruct (isFeedRestorable w) as [[[]|] w1]; cbn [snd] in Hw; subst w1.
    + rewrite restoreFeed_run. cbn [rd remote called].
      destruct (RestoreDeletedFeed _ _) as [[e|] r2]; cbn [fst snd].
      * eexists [_; _]. split; [simpl; by rewrite <- app_assoc |].
        split; [simpl; lia | unfold count_calls; simpl; lia].
      * rewrite resourceFeedRead_calls. eexists [_; _; _].
        split; [simpl; by rewrite <- !app_assoc |].
        split; [simpl; lia | unfold count_calls; simpl; lia].
    + eapply Htail; [reflexivity | simpl; lia | unfold count_calls; simpl; lia].
    + eexists [_]. split; [done |]. split; [simpl; lia | unfold count_calls; simpl; lia].
  - apply (Htail w []); [by rewrite app_nil_r | simpl; lia | done].
  - exists []. split; [by rewrite app_nil_r |].
    split; [simpl; lia | unfold count_calls; simpl; lia].
  - exists []. split; [by rewrite app_nil_r |].
    split; [simpl; lia | unfold count_calls; simpl; lia].
  - apply (Htail w []); [by rewrite app_nil_r | simpl; lia | done].
Qed.

End further.

(** ** The further properties at work on the scripted remote side *)

(** Reading the feed [pkgs] twice gives the same state twice. *)
Lemma read_twice_same_state_witness :
  rd (resourceFeedRead (resourceFeedRead (start (pkgs_data []) all_good)).2).2
  = pkgs_tracked [].
Proof.
  pose proof (read_twice_same_state (start (pkgs_data []) all_good) None) as H.
  cbv zeta in H. exact (proj2 (H eq_refl eq_refl)).
Defined.

(** The history cannot be queried: Create creates the feed. *)
Lemma create_falls_through_when_not_restorable_witness :
  calls (resourceFeedCreate (start (pkgs_data [features_block false true]) history_down)).2
  = [CallGetFeedChange pkgs_query; CallCreateFeed pkgs_create; CallGetFeed pkgs_get].
Proof.
  pose proof (create_falls_through_when_not_restorable
                (start (pkgs_data [features_block false true]) history_down)) as H.
  cbv zeta in H. exact (proj2 (H eq_refl eq_refl)).
Defined.

(** A change record without change type: Create panics after the query. *)
Lemma create_panics_with_the_check_witness :
  (resourceFeedCreate (start (pkgs_data [features_block false true]) change_untyped)).1 = Panic
  ∧ calls (resourceFeedCreate (start (pkgs_data [features_block false true]) change_untyped)).2
    = [CallGetFeedChange pkgs_query]
  ∧ rd (resourceFeedCreate (start (pkgs_data [features_block false true]) change_untyped)).2
    = pkgs_data [features_block false true].
Proof.
  exact (create_panics_with_the_check
           (start (pkgs_data [features_block false true]) change_untyped) eq_refl eq_refl).
Defined.

(** The name is taken: what Create returns is the message built around
    the 409 of [CreateFeed], not the 409. *)
Lemma create_and_read_errors_are_rebuilt_witness :
  (resourceFeedCreate (start (pkgs_data []) create_refused)).1
  = Done (Some (errorString "creating new feed. Name: pkgs, Error: feed name is taken"))
  ∧ ∃ cause (r : Script),
      (((GetFeed pkgs_get r).1.2 = Some cause
        ∧ errorString "creating new feed. Name: pkgs, Error: feed name is taken"
          = errorString (" reading feed during read: " +:+ Error cause))
       ∨ ((CreateFeed pkgs_create r).1.2 = Some cause
          ∧ errorString "creating new feed. Name: pkgs, Error: feed name is taken"
            = errorString ("creating new feed. Name: " +:+ "pkgs"
                           +:+ ", Error: " +:+ Error cause))
       ∨ ((RestoreDeletedFeed pkgs_restore r).1 = Some cause
          ∧ errorString "creating new feed. Name: pkgs, Error: feed name is taken"
            = errorString ("restoring feed. Name: " +:+ "pkgs"
                           +:+ ", Error: " +:+ Error cause)))
      ∧ errorString "creating new feed. Name: pkgs, Error: feed name is taken" ≠ cause.
Proof.
  split; [reflexivity |].
  exact (create_and_read_errors_are_rebuilt
           (start (pkgs_data []) create_refused)
           (errorString "creating new feed. Name: pkgs, Error: feed name is taken")
           (or_intror eq_refl)).
Defined.

(** The update goes through and the read-back fails: Update returns the
    message Read builds around the 500 of [GetFeed]. *)
Lemma update_error_shapes_witness :
  (resourceFeedUpdate (start (pkgs_applied []) (fetch_fails err_server))).1
  = Done (Some (errorString " reading feed during read: internal server error"))
  ∧ ((on_UpdateFeed (fetch_fails err_server)).2
     = Some (errorString " reading feed during read: internal server error")
     ∨ ((on_UpdateFeed (fetch_fails err_server)).2 = None
        ∧ ∃ cause,
            (on_GetFeed (fetch_fails err_server)).2 = Some cause
            ∧ errorString " reading feed during read: internal server error"
              = errorString (" reading feed during read: " +:+ Error cause)
            ∧ errorString " reading feed during read: internal server error" ≠ cause)).
Proof.
  split; [reflexivity |].
  exact (update_error_shapes
           (start (pkgs_applied []) (fetch_fails err_server))
           (errorString " reading feed during read: internal server error") eq_refl).
Defined.

(** The create goes through and the read-back finds nothing: no error,
    no identifier. *)
Lemma create_read_back_not_found_witness :
  (resourceFeedCreate (start (pkgs_data []) (fetch_fails err_gone))).1 = Done None
  ∧ Id (rd (resourceFeedCreate (start (pkgs_data []) (fetch_fails err_gone))).2) = "".
Proof.
  exact (create_read_back_not_found (start (pkgs_data []) (fetch_fails err_gone)) err_gone
           eq_refl eq_refl eq_refl eq_refl).
Defined.

(** The create goes through and the read-back brings the id. *)
Lemma create_state_from_read_back_witness :
  Id (rd (resourceFeedCreate (start (pkgs_data []) all_good)).2) = UUID_String pkgs_id.
Proof.
  pose proof (create_state_from_read_back (start (pkgs_data []) all_good) pkgs_feed pkgs_id) as H.
  cbv zeta in H.
  assert (Hproject : ∀ p, Feed_Project pkgs_feed = Some p → is_Some (ProjectReference_Id p)).
  { intros p [= <-]. by eexists. }
  exact (proj1 (proj2 (H eq_refl eq_refl eq_refl eq_refl Hproject))).
Defined.

(** An empty answer: the identifier that was tracked stays. *)
Lemma read_empty_answer_keeps_state_witness :
  (resourceFeedRead (start (pkgs_tracked []) fetch_nothing)).1 = Done None
  ∧ rd (resourceFeedRead (start (pkgs_tracked []) fetch_nothing)).2 = pkgs_tracked [].
Proof.
  exact (read_empty_answer_keeps_state (start (pkgs_tracked []) fetch_nothing) eq_refl).
Defined.
